(** * Apple Silicon optimizer: a shallow embedding of
      [acestep/apple_silicon_optimizer.py]

    The Python module probes the host (OS identity, CPU architecture, an
    optional ML runtime, an optional system-utilities library, two [sysctl]
    commands), keeps two booleans on an [AppleSiliconOptimizer] object and
    derives a settings record from them.

    The embedding keeps the shape of the source:
    - the outside world a probe can observe is a read-only record [system];
    - what a call can change (the object's attributes, [os.environ], and the
      observable actions: commands run, modules imported, lines printed) is
      a [world] threaded through a state-and-exception monad;
    - Python exceptions are values of [exn]; [try_except] is the [try] /
      [except] statement with the tuple of caught classes as a predicate. *)

From Stdlib Require Import ZArith String Ascii List Lia.
From stdpp Require Import base option strings gmap pretty.

Local Open Scope string_scope.
Local Open Scope Z_scope.

(** ** Python built-ins used by the module *)

Module Py.

(** [str.isspace] on the ASCII range: TAB..CR, FS..US and the space. *)
Definition isspace (c : ascii) : bool :=
  let n := N_of_ascii c in
  ((9 <=? n) && (n <=? 13) || (28 <=? n) && (n <=? 32))%N.

Fixpoint lstrip (s : string) : string :=
  match s with
  | String c s' => if isspace c then lstrip s' else s
  | EmptyString => EmptyString
  end.

Definition rstrip (s : string) : string :=
  String.rev (lstrip (String.rev s)).

(** [s.strip()] *)
Definition strip (s : string) : string := rstrip (lstrip s).

Definition lower_char (c : ascii) : ascii :=
  let n := N_of_ascii c in
  if ((65 <=? n) && (n <=? 90))%N then ascii_of_N (n + 32) else c.

(** [s.lower()] (ASCII letters) *)
Fixpoint lower (s : string) : string :=
  match s with
  | String c s' => String (lower_char c) (lower s')
  | EmptyString => EmptyString
  end.

(** [needle in hay] for strings: substring test. *)
Fixpoint contains (needle hay : string) : bool :=
  String.prefix needle hay ||
  match hay with
  | String _ hay' => contains needle hay'
  | EmptyString => false
  end.

Definition digit (c : ascii) : option Z :=
  let n := N_of_ascii c in
  if ((48 <=? n) && (n <=? 57))%N then Some (Z.of_N n - 48) else None.

(** Decimal digits, with single underscores allowed between digits.
    [after_digit] tells whether the previous character was a digit. *)
Fixpoint int_digits (acc : Z) (after_digit : bool) (s : string) : option Z :=
  match s with
  | EmptyString => if after_digit then Some acc else None
  | String c s' =>
      match digit c with
      | Some d => int_digits (10 * acc + d) true s'
      | None =>
          if Ascii.eqb c "_"%char && after_digit
          then int_digits acc false s'
          else None
      end
  end.

(** [int(s)] in base 10: surrounding whitespace is ignored, one optional
    sign, then digits; [None] stands for [ValueError].  Strings are ASCII
    here, so digits of other scripts do not occur, and the interpreter's
    optional cap on the number of digits is left out: both would only turn
    more inputs into [ValueError]. *)
Definition int (s : string) : option Z :=
  match strip s with
  | String "+"%char r => int_digits 0 false r
  | String "-"%char r => Z.opp <$> int_digits 0 false r
  | r => int_digits 0 false r
  end.

(** [str(b)] and [str(n)] *)
Definition str_bool (b : bool) : string := if b then "True" else "False".
Definition str_int (n : Z) : string := pretty n.

Definition str_opt_int (v : option Z) : string :=
  match v with
  | Some n => str_int n
  | None => "None"
  end.

(** [s * n] for a one-character string *)
Fixpoint repeat_char (c : ascii) (n : nat) : string :=
  match n with
  | O => EmptyString
  | S n' => String c (repeat_char c n')
  end.

End Py.

(** ** Exceptions, observable actions and the monad *)

(** The exception classes the module names in an [except] clause, and the
    ones its own expressions can raise. *)
Inductive exn :=
  | TimeoutExpired | CalledProcessError | FileNotFoundError
  | ImportError | ValueError | TypeError | KeyError | AttributeError.

Inductive outcome (A : Type) :=
  | Ret (a : A)
  | Raise (e : exn).
Arguments Ret {A} a.
Arguments Raise {A} e.

Definition outcome_map {A B} (f : A -> B) (o : outcome A) : outcome B :=
  match o with
  | Ret a => Ret (f a)
  | Raise e => Raise e
  end.

#[global] Instance outcome_fmap : FMap outcome := @outcome_map.

(** What a call does that an observer outside can see. *)
Inductive event :=
  | EvRun (argv : list string)     (* subprocess.run(argv, ...) *)
  | EvImport (module : string)     (* import module *)
  | EvPrint (line : string).       (* print(line) *)

(** A state-and-exception monad: the state survives a raised exception, as
    Python's heap and environment do. *)
Definition ST (S A : Type) : Type := S -> outcome A * S.

Definition st_ret {S A} (a : A) : ST S A := fun s => (Ret a, s).

Definition st_bind {S A B} (m : ST S A) (k : A -> ST S B) : ST S B :=
  fun s =>
    match m s with
    | (Ret a, s') => k a s'
    | (Raise e, s') => (Raise e, s')
    end.

Definition raise {S A} (e : exn) : ST S A := fun s => (Raise e, s).

(** [try: body except classes: handler] *)
Definition try_except {S A} (body : ST S A) (classes : exn -> bool)
    (handler : ST S A) : ST S A :=
  fun s =>
    match body s with
    | (Ret a, s') => (Ret a, s')
    | (Raise e, s') => if classes e then handler s' else (Raise e, s')
    end.

#[global] Instance st_mret {S} : MRet (ST S) := @st_ret S.
#[global] Instance st_mbind {S} : MBind (ST S) :=
  fun A B k m => st_bind m k.

(** ** The outside world *)

(** How [subprocess.run(argv, capture_output=True, text=True, timeout=5)]
    can end: the run completes (with any exit status: the call passes no
    [check=True], so a non-zero status raises nothing), it exceeds the
    timeout ([TimeoutExpired]) or the binary is missing
    ([FileNotFoundError]). *)
Inductive proc_result :=
  | Completed (returncode : Z) (stdout : string)
  | TimedOut
  | NotFound.

(** The part of [torch] the module asks. *)
Record torch_lib := {
  mps_is_available : bool;     (* torch.backends.mps.is_available() *)
  mps_is_built : bool;         (* torch.backends.mps.is_built() *)
  cuda_is_available : bool     (* torch.cuda.is_available() *)
}.

Record system := {
  platform_system : string;                  (* platform.system() *)
  platform_machine : string;                 (* platform.machine() *)
  platform_platform : string;                (* platform.platform() *)
  run_command : list string -> proc_result;  (* what a command does *)
  torch : option torch_lib;                  (* None: import fails *)
  psutil_available : option Z;               (* psutil.virtual_memory()
                                                .available; None: import
                                                fails *)
  cpu_count : option Z                       (* os.cpu_count() *)
}.

(** ** What a call can change *)

(** Attributes of an [AppleSiliconOptimizer] object; [None] is an
    attribute that has not been assigned yet. *)
Record optimizer := {
  is_apple_silicon : option bool;
  mps_available : option bool
}.

Record world := {
  self : optimizer;                 (* the optimizer instance *)
  environ : gmap string string;     (* os.environ *)
  trace : list event                (* actions so far, oldest first *)
}.

Abbreviation M := (ST world).

Definition emit (e : event) : M unit :=
  fun w => (Ret tt, {| self := self w; environ := environ w;
                       trace := trace w ++ [e] |}).

Definition print (line : string) : M unit := emit (EvPrint line).

(** [os.environ[key] = value] *)
Definition setenv (key value : string) : M unit :=
  fun w => (Ret tt, {| self := self w; environ := <[key := value]> (environ w);
                       trace := trace w |}).

Definition set_is_apple_silicon (b : bool) : M unit :=
  fun w => (Ret tt, {| self := {| is_apple_silicon := Some b;
                                  mps_available := mps_available (self w) |};
                       environ := environ w; trace := trace w |}).

Definition set_mps_available (b : bool) : M unit :=
  fun w => (Ret tt, {| self := {| is_apple_silicon := is_apple_silicon (self w);
                                  mps_available := Some b |};
                       environ := environ w; trace := trace w |}).

(** Reading [self.attr]; an unassigned attribute raises. *)
Definition getattr (attr : optimizer -> option bool) : M bool :=
  fun w =>
    match attr (self w) with
    | Some b => (Ret b, w)
    | None => (Raise AttributeError, w)
    end.

Definition subprocess_run (sys : system) (argv : list string)
    : M (Z * string) :=
  emit (EvRun argv);;
  match run_command sys argv with
  | Completed rc out => st_ret (rc, out)
  | TimedOut => raise TimeoutExpired
  | NotFound => raise FileNotFoundError
  end.

Definition import_torch (sys : system) : M torch_lib :=
  emit (EvImport "torch");;
  match torch sys with
  | Some t => st_ret t
  | None => raise ImportError
  end.

(** [import psutil] followed by [psutil.virtual_memory().available] *)
Definition import_psutil (sys : system) : M Z :=
  emit (EvImport "psutil");;
  match psutil_available sys with
  | Some bytes => st_ret bytes
  | None => raise ImportError
  end.

(** ** class AppleSiliconOptimizer *)

Definition _detect_apple_silicon (sys : system) : M bool :=
  if negb (String.eqb (platform_system sys) "Darwin") then st_ret false else
  let machine := Py.lower (platform_machine sys) in
  if String.eqb machine "arm64" then st_ret true else
  try_except
    (result ← subprocess_run sys ["sysctl"; "-n"; "machdep.cpu.brand_string"];
     let brand_string := Py.lower (Py.strip (snd result)) in
     st_ret (Py.contains "apple" brand_string))
    (fun e => match e with
              | TimeoutExpired | CalledProcessError | FileNotFoundError => true
              | _ => false
              end)
    (st_ret false).

Definition _check_mps_availability (sys : system) : M bool :=
  a ← getattr is_apple_silicon;
  if negb (a : bool) then st_ret false else
  try_except
    (t ← import_torch sys;
     st_ret (mps_is_available t && mps_is_built t))
    (fun e => match e with ImportError => true | _ => false end)
    (st_ret false).

Definition __init__ (sys : system) : M unit :=
  a ← _detect_apple_silicon sys;
  set_is_apple_silicon a;;
  m ← _check_mps_availability sys;
  set_mps_available m.

(** [AppleSiliconOptimizer()]: a fresh object, then [__init__]. *)
Definition new_optimizer (sys : system) : M unit :=
  fun w =>
    __init__ sys {| self := {| is_apple_silicon := None;
                               mps_available := None |};
                    environ := environ w; trace := trace w |}.

Definition _check_cuda_availability (sys : system) : M bool :=
  try_except
    (t ← import_torch sys;
     st_ret (cuda_is_available t))
    (fun e => match e with ImportError => true | _ => false end)
    (st_ret false).

Definition get_optimal_device (sys : system) (prefer_mps : bool) : M string :=
  a ← getattr is_apple_silicon;
  c ← (if a && prefer_mps then getattr mps_available else st_ret false);
  if (c : bool) then st_ret "mps" else
  cuda ← _check_cuda_availability sys;
  if (cuda : bool) then st_ret "cuda" else st_ret "cpu".

(** [str(min(8, os.cpu_count() or 4))]: [or] takes 4 when the count is
    [None] or zero. *)
Definition thread_count (sys : system) : string :=
  let count := match cpu_count sys with
               | Some n => if (n =? 0) then 4 else n
               | None => 4
               end in
  Py.str_int (Z.min 8 count).

(** The dict literal [optimizations], in insertion order. *)
Definition optimizations (sys : system) : list (string * string) :=
  [ ("PYTORCH_ENABLE_MPS_FALLBACK", "1");
    ("PYTORCH_MPS_HIGH_WATERMARK_RATIO", "0.0");
    ("MALLOC_ARENA_MAX", "4");
    ("OMP_NUM_THREADS", thread_count sys);
    ("MKL_NUM_THREADS", thread_count sys);
    ("OPENBLAS_NUM_THREADS", thread_count sys);
    ("VECLIB_MAXIMUM_THREADS", thread_count sys);
    ("TOKENIZERS_PARALLELISM", "false") ].

(** [for x in xs: body(x)] *)
Fixpoint for_each {S A} (xs : list A) (body : A -> ST S unit) : ST S unit :=
  match xs with
  | [] => st_ret tt
  | x :: xs' => body x;; for_each xs' body
  end.

Definition apply_apple_silicon_optimizations (sys : system) : M unit :=
  a ← getattr is_apple_silicon;
  if negb (a : bool) then st_ret tt else
  for_each (optimizations sys) (fun kv => setenv (fst kv) (snd kv));;
  print "✅ Applied Apple Silicon ARM64 optimizations".

(** The dict built by [get_memory_info]: a key can be missing, or present
    with the value [None]. *)
Abbreviation memory_dict := (gmap string (option Z)).

(** A call frame with one local dict next to the world, so that an
    [except] handler sees the assignments made before the exception. *)
Definition in_world {L A} (m : M A) : ST (L * world) A :=
  fun lw => let (r, w') := m (snd lw) in (r, (fst lw, w')).

(** [memory_info[key] = value] *)
Definition assign (key : string) (value : option Z)
    : ST (memory_dict * world) unit :=
  fun lw => (Ret tt, (<[key := value]> (fst lw), snd lw)).

(** [int(text)], raising [ValueError] *)
Definition int_or_raise {S} (text : string) : ST S Z :=
  match Py.int text with
  | Some n => st_ret n
  | None => raise ValueError
  end.

(** A function body with the local [init]: it returns the local as the
    body left it, or passes on the exception the body raised. *)
Definition with_local {L A} (init : L) (body : ST (L * world) A) : M L :=
  fun w =>
    match body (init, w) with
    | (Ret _, lw) => (Ret (fst lw), snd lw)
    | (Raise e, lw) => (Raise e, snd lw)
    end.

Definition get_memory_info (sys : system) : M memory_dict :=
  with_local (∅ : memory_dict)
    (try_except
       ((if String.eqb (platform_system sys) "Darwin" then
           result ← in_world (subprocess_run sys ["sysctl"; "-n"; "hw.memsize"]);
           total_bytes ← int_or_raise (Py.strip (snd result));
           assign "total_gb" (Some (total_bytes / 1024 ^ 3))
         else st_ret tt);;
        available ← in_world (import_psutil sys);
        assign "available_gb" (Some (available / 1024 ^ 3)))
       (fun e => match e with
                 | TimeoutExpired | CalledProcessError | FileNotFoundError
                 | ImportError | ValueError => true
                 | _ => false
                 end)
       (assign "total_gb" None;;
        assign "available_gb" None)).

(** [x < n] and [x // n] where [x] may be [None]: Python 3 raises
    [TypeError] for [None]. *)
Definition py_lt {S} (x : option Z) (n : Z) : ST S bool :=
  match x with
  | Some v => st_ret (v <? n)
  | None => raise TypeError
  end.

Definition py_floordiv {S} (x : option Z) (n : Z) : ST S Z :=
  match x with
  | Some v => st_ret (v / n)
  | None => raise TypeError
  end.

(** The dict returned by [get_recommended_settings]; its keys are fixed. *)
Record settings := {
  device : string;
  offload_to_cpu : bool;
  offload_dit_to_cpu : bool;
  use_flash_attention : bool;
  backend : string;
  batch_size : Z;
  precision : string
}.

Definition get_recommended_settings (sys : system) : M settings :=
  memory_info ← get_memory_info sys;
  (* memory_info.get("total_gb", 8): the default only for a missing key *)
  let total_gb := default (Some 8) ((memory_info : memory_dict) !! "total_gb") in
  offload_to_cpu' ← py_lt total_gb 32;
  device' ← get_optimal_device sys true;
  offload_dit' ← py_lt total_gb 16;
  quotient ← py_floordiv total_gb 8;
  mps ← getattr mps_available;
  st_ret {| device := device';
            offload_to_cpu := offload_to_cpu';
            offload_dit_to_cpu := offload_dit';
            use_flash_attention := false;
            backend := "pt";
            batch_size := Z.min 4 (Z.max 1 quotient);
            precision := if (mps : bool) then "float16" else "float32" |}.

(** [recommendations.items()] with every value through [str]. *)
Definition settings_items (r : settings) : list (string * string) :=
  [ ("device", device r);
    ("offload_to_cpu", Py.str_bool (offload_to_cpu r));
    ("offload_dit_to_cpu", Py.str_bool (offload_dit_to_cpu r));
    ("use_flash_attention", Py.str_bool (use_flash_attention r));
    ("backend", backend r);
    ("batch_size", Py.str_int (batch_size r));
    ("precision", precision r) ].

(** [d[key]], raising [KeyError] for a missing key *)
Definition subscript {S} (d : memory_dict) (key : string) : ST S (option Z) :=
  match d !! key with
  | Some v => st_ret v
  | None => raise KeyError
  end.

(** Truth value of an [Optional[int]] *)
Definition truthy (v : option Z) : bool :=
  match v with
  | Some n => negb (n =? 0)
  | None => false
  end.

(** [if v: print(f"{label}{v} GB")] *)
Definition print_memory_line (label : string) (v : option Z) : M unit :=
  if truthy v then print (label +:+ Py.str_opt_int v +:+ " GB")
  else st_ret tt.

Definition print_system_info (sys : system) : M unit :=
  print "🍎 Apple Silicon ARM64 System Information";;
  print (Py.repeat_char "=" 50);;
  print ("Platform: " +:+ platform_platform sys);;
  print ("Architecture: " +:+ platform_machine sys);;
  a ← getattr is_apple_silicon;
  print ("Apple Silicon Detected: " +:+ Py.str_bool a);;
  m ← getattr mps_available;
  print ("MPS Available: " +:+ Py.str_bool m);;
  d ← get_optimal_device sys true;
  print ("Optimal Device: " +:+ d);;
  memory_info ← get_memory_info sys;
  total ← subscript memory_info "total_gb";
  print_memory_line "Total Memory: " total;;
  available ← subscript memory_info "available_gb";
  print_memory_line "Available Memory: " available;;
  recommendations ← get_recommended_settings sys;
  print (String "010" "🚀 Recommended Settings:");;
  for_each (settings_items recommendations)
    (fun kv => print ("  " +:+ fst kv +:+ ": " +:+ snd kv));;
  print (Py.repeat_char "=" 50).

(** ** Module level *)

Definition optimize_for_apple_silicon (sys : system) : M unit :=
  new_optimizer sys;;
  apply_apple_silicon_optimizations sys;;
  a ← getattr is_apple_silicon;
  if (a : bool) then print_system_info sys else st_ret tt.

(** What importing the module does, and the three functions it exports,
    all on the one shared instance. *)
Module Exports.

Definition on_import (sys : system) : M unit := new_optimizer sys.

Definition get_optimal_device (sys : system) : M string :=
  get_optimal_device sys true.

Definition is_apple_silicon : M bool := getattr is_apple_silicon.

Definition get_recommended_settings (sys : system) : M settings :=
  get_recommended_settings sys.

End Exports.

(** ** Operations on a constructed instance *)

(** Every method of the class that can be called once [__init__] has run;
    [run_op] performs one and keeps the world it leaves, whether the call
    returned or raised. *)
Inductive operation :=
  | OpDetect
  | OpCheckMps
  | OpCheckCuda
  | OpGetOptimalDevice (prefer_mps : bool)
  | OpApply
  | OpGetMemoryInfo
  | OpGetRecommendedSettings
  | OpPrintSystemInfo.

Definition run_op (call : system * operation) (w : world) : world :=
  let sys := fst call in
  match snd call with
  | OpDetect => snd (_detect_apple_silicon sys w)
  | OpCheckMps => snd (_check_mps_availability sys w)
  | OpCheckCuda => snd (_check_cuda_availability sys w)
  | OpGetOptimalDevice p => snd (get_optimal_device sys p w)
  | OpApply => snd (apply_apple_silicon_optimizations sys w)
  | OpGetMemoryInfo => snd (get_memory_info sys w)
  | OpGetRecommendedSettings => snd (get_recommended_settings sys w)
  | OpPrintSystemInfo => snd (print_system_info sys w)
  end.

(** A sequence of calls, each against the system as it is at that time. *)
Definition run_ops (calls : list (system * operation)) (w : world) : world :=
  fold_left (fun w call => run_op call w) calls w.

(** ** Sample systems *)

Definition brand_argv : list string :=
  ["sysctl"; "-n"; "machdep.cpu.brand_string"].
Definition memsize_argv : list string := ["sysctl"; "-n"; "hw.memsize"].

(** A host on which only the two [sysctl] queries exist. *)
Definition sysctl_only (brand memsize : proc_result) (argv : list string)
    : proc_result :=
  if decide (argv = brand_argv) then brand
  else if decide (argv = memsize_argv) then memsize
  else NotFound.

Definition no_world : world :=
  {| self := {| is_apple_silicon := None; mps_available := None |};
     environ := ∅; trace := [] |}.

Definition constructed_world (a m : bool) : world :=
  {| self := {| is_apple_silicon := Some a; mps_available := Some m |};
     environ := ∅; trace := [] |}.

Definition torch_mps : torch_lib :=
  {| mps_is_available := true; mps_is_built := true;
     cuda_is_available := false |}.

Definition torch_cuda : torch_lib :=
  {| mps_is_available := false; mps_is_built := false;
     cuda_is_available := true |}.

(** An Apple Silicon Mac with [gb] GiB of memory, torch and psutil. *)
Definition mac_with (gb : Z) : system :=
  {| platform_system := "Darwin";
     platform_machine := "arm64";
     platform_platform := "macOS-14.5-arm64-arm-64bit";
     run_command :=
       sysctl_only (Completed 0 "Apple M2")
                   (Completed 0 (Py.str_int (gb * 1024 ^ 3)));
     torch := Some torch_mps;
     psutil_available := Some (3 * 1024 ^ 3);
     cpu_count := Some 10 |}.

(** A Linux host with a CUDA build of torch. *)
Definition linux_cuda : system :=
  {| platform_system := "Linux";
     platform_machine := "x86_64";
     platform_platform := "Linux-6.8.0-x86_64-with-glibc2.39";
     run_command := fun _ => NotFound;
     torch := Some torch_cuda;
     psutil_available := Some (20 * 1024 ^ 3);
     cpu_count := Some 16 |}.

(** An Apple Silicon Mac on which psutil is not installed. *)
Definition mac_without_psutil : system :=
  {| platform_system := "Darwin";
     platform_machine := "arm64";
     platform_platform := "macOS-14.5-arm64-arm-64bit";
     run_command :=
       sysctl_only (Completed 0 "Apple M2") (Completed 0 "17179869184");
     torch := Some torch_mps;
     psutil_available := None;
     cpu_count := Some 8 |}.

(** A Mac reporting [x86_64] whose brand-string query exits with status 1
    after writing to standard output. *)
Definition mac_failed_brand_query : system :=
  {| platform_system := "Darwin";
     platform_machine := "x86_64";
     platform_platform := "macOS-14.5-x86_64-i386-64bit";
     run_command :=
       sysctl_only (Completed 1 "Apple M1") (Completed 0 "17179869184");
     torch := None;
     psutil_available := Some (3 * 1024 ^ 3);
     cpu_count := Some 8 |}.

(** ** Predicates used in the statements *)

(** [m] leaves the observation [obs] of the state as it found it, whether
    it returns or raises. *)
Definition preserves {S X A} (obs : S -> X) (m : ST S A) : Prop :=
  forall s, obs (snd (m s)) = obs s.

(** The outcome of [m], and the observation it leaves, depend on the state
    only through [obs]. *)
Definition determined_by {S X A} (obs : S -> X) (m : ST S A) : Prop :=
  forall s s', obs s = obs s' ->
    fst (m s) = fst (m s') /\ obs (snd (m s)) = obs (snd (m s')).

(** The world after some more observable actions. *)
Definition log (w : world) (evs : list event) : world :=
  {| self := self w; environ := environ w; trace := trace w ++ evs |}.

(** Observations of a call frame: the instance alone, and the instance
    together with the local. *)
Definition frame_self {L} (lw : L * world) : optimizer := self (snd lw).
Definition frame_local_self {L} (lw : L * world) : L * optimizer :=
  (fst lw, self (snd lw)).

(** [__init__] has run: both attributes are assigned. *)
Definition constructed (o : optimizer) : Prop :=
  exists a m, o = {| is_apple_silicon := Some a; mps_available := Some m |}.

(** The class invariant: an instance reports MPS only on Apple Silicon. *)
Definition mps_implies_apple_silicon (o : optimizer) : Prop :=
  mps_available o = Some true -> is_apple_silicon o = Some true.

(** What [torch.cuda.is_available()] answers, [False] without torch. *)
Definition cuda_available (sys : system) : bool :=
  match torch sys with
  | Some t => cuda_is_available t
  | None => false
  end.

(** The [try] block of [get_memory_info] ends in one of the caught
    exceptions: the memory-size query timed out, was not found or printed
    no integer (Darwin only), or psutil cannot be imported. *)
Definition memsize_query_fails (sys : system) : bool :=
  String.eqb (platform_system sys) "Darwin" &&
  match run_command sys memsize_argv with
  | Completed _ out => bool_decide (Py.int (Py.strip out) = None)
  | TimedOut | NotFound => true
  end.

Definition memory_probe_fails (sys : system) : bool :=
  memsize_query_fails sys || bool_decide (psutil_available sys = None).

(** The decision order of the specification for the device: accelerated
    if target architecture, preferred and available; else secondary if
    available; else cpu. *)
Definition spec_device (target prefer accelerated secondary : bool) : string :=
  if target && prefer && accelerated then "mps"
  else if secondary then "cuda"
  else "cpu".

(** The batch-size rule of the specification: the quotient by 8 rounded
    down, raised to 1 and capped at 4. *)
Definition spec_batch_size (total_gb : Z) : Z :=
  let q := total_gb / 8 in
  if q <? 1 then 1 else if 4 <? q then 4 else q.

(** ** Further predicates *)

(** What the MPS query of [torch] amounts to, [False] without torch. *)
Definition mps_backend_ready (sys : system) : bool :=
  match torch sys with
  | Some t => mps_is_available t && mps_is_built t
  | None => false
  end.

(** The commands run so far. *)
Definition is_run (e : event) : bool :=
  match e with
  | EvRun _ => true
  | _ => false
  end.

Definition run_events (w : world) : list event := filter is_run (trace w).

(** The same observations from inside a call frame. *)
Definition frame_environ {L} (lw : L * world) : gmap string string :=
  environ (snd lw).
Definition frame_run_events {L} (lw : L * world) : list event :=
  run_events (snd lw).

(** [os.environ] after the assignments of a table, in order. *)
Definition write_table (table : list (string * string))
    (env : gmap string string) : gmap string string :=
  fold_left (fun e kv => <[fst kv := snd kv]> e) table env.

(** On an instance with attributes [o], [m] returns a value satisfying
    [Q] and leaves the attributes alone; or it raises [e]. *)
Definition returns {A} (o : optimizer) (m : M A) (Q : A -> Prop) : Prop :=
  forall w, self w = o ->
    exists a w', m w = (Ret a, w') /\ self w' = o /\ Q a.

Definition raises {A} (o : optimizer) (m : M A) (e : exn) : Prop :=
  forall w, self w = o -> fst (m w) = Raise e.

(** The keys of a memory report. *)
Definition memory_report (total available : option Z)
    : gmap string (option Z) :=
  <["available_gb" := available]> (<["total_gb" := total]> ∅).

(** * Properties *)

(** ** The built-ins on sample inputs *)

Example strip_sample : Py.strip (String "009" "  Apple M1 Max  ") = "Apple M1 Max".
Proof. reflexivity. Qed.

Example lower_sample : Py.lower "Apple M1" = "apple m1".
Proof. reflexivity. Qed.

Example contains_sample :
  Py.contains "apple" "intel(r) core(tm)" = false /\
  Py.contains "apple" "an apple m2" = true.
Proof. split; reflexivity. Qed.

Example int_samples :
  Py.int "17179869184" = Some 17179869184 /\
  Py.int " -12_3 " = Some (-123) /\
  Py.int "" = None /\
  Py.int "1__2" = None /\
  Py.int "12_" = None /\
  Py.int "sysctl: unknown oid" = None.
Proof. repeat split; reflexivity. Qed.

Example thread_count_samples :
  thread_count (mac_with 16) = "8" /\
  thread_count mac_failed_brand_query = "8" /\
  thread_count linux_cuda = "8".
Proof. repeat split; reflexivity. Qed.

(** ** Frame rules of the monad *)

Section Frame.
Context {S X : Type} (obs : S -> X).

Lemma preserves_ret {A} (a : A) : preserves obs (st_ret a).
Proof. intros s. reflexivity. Qed.

Lemma preserves_mret {A} (a : A) : preserves obs (mret a : ST S A).
Proof. intros s. reflexivity. Qed.

Lemma preserves_raise {A} (e : exn) : preserves obs (raise e : ST S A).
Proof. intros s. reflexivity. Qed.

Lemma preserves_bind {A B} (m : ST S A) (k : A -> ST S B) :
  preserves obs m -> (forall a, preserves obs (k a)) ->
  preserves obs (m ≫= k).
Proof.
  intros Hm Hk s. unfold mbind, st_mbind, st_bind.
  specialize (Hm s). destruct (m s) as [[a|e] s1]; simpl in *.
  - rewrite Hk. exact Hm.
  - exact Hm.
Qed.

Lemma preserves_try_except {A} (body handler : ST S A) classes :
  preserves obs body -> preserves obs handler ->
  preserves obs (try_except body classes handler).
Proof.
  intros Hb Hh s. unfold try_except.
  specialize (Hb s). destruct (body s) as [[a|e] s1]; simpl in *.
  - exact Hb.
  - destruct (classes e); simpl; [rewrite Hh|]; exact Hb.
Qed.

Lemma preserves_for_each {A} (xs : list A) (body : A -> ST S unit) :
  (forall x, preserves obs (body x)) -> preserves obs (for_each xs body).
Proof.
  intros Hb. induction xs as [|x xs IH]; simpl.
  - apply preserves_ret.
  - apply preserves_bind; [apply Hb | intros _; exact IH].
Qed.

Lemma preserves_int_or_raise text : preserves obs (int_or_raise text).
Proof. unfold int_or_raise. destruct (Py.int text); intros s; reflexivity. Qed.

Lemma preserves_py_lt x n : preserves obs (py_lt x n).
Proof. destruct x; intros s; reflexivity. Qed.

Lemma preserves_py_floordiv x n : preserves obs (py_floordiv x n).
Proof. destruct x; intros s; reflexivity. Qed.

Lemma preserves_subscript d key : preserves obs (subscript d key).
Proof. unfold subscript. destruct (d !! key); intros s; reflexivity. Qed.

Lemma determined_ret {A} (a : A) : determined_by obs (st_ret a).
Proof. intros s s' H. split; [reflexivity | exact H]. Qed.

Lemma determined_mret {A} (a : A) : determined_by obs (mret a : ST S A).
Proof. apply determined_ret. Qed.

Lemma determined_raise {A} (e : exn) : determined_by obs (raise e : ST S A).
Proof. intros s s' H. split; [reflexivity | exact H]. Qed.

Lemma determined_bind {A B} (m : ST S A) (k : A -> ST S B) :
  determined_by obs m -> (forall a, determined_by obs (k a)) ->
  determined_by obs (m ≫= k).
Proof.
  intros Hm Hk s s' H. unfold mbind, st_mbind, st_bind.
  destruct (Hm s s' H) as [Hr Ho].
  destruct (m s) as [[a|e] s1], (m s') as [[a'|e'] s1'];
    simpl in *; try discriminate.
  - injection Hr as ->. apply Hk, Ho.
  - injection Hr as ->. split; [reflexivity | exact Ho].
Qed.

Lemma determined_try_except {A} (body handler : ST S A) classes :
  determined_by obs body -> determined_by obs handler ->
  determined_by obs (try_except body classes handler).
Proof.
  intros Hb Hh s s' H. unfold try_except.
  destruct (Hb s s' H) as [Hr Ho].
  destruct (body s) as [[a|e] s1], (body s') as [[a'|e'] s1'];
    simpl in *; try discriminate.
  - split; [exact Hr | exact Ho].
  - injection Hr as ->. destruct (classes e').
    + apply Hh, Ho.
    + split; [reflexivity | exact Ho].
Qed.

Lemma determined_for_each {A} (xs : list A) (body : A -> ST S unit) :
  (forall x, determined_by obs (body x)) ->
  determined_by obs (for_each xs body).
Proof.
  intros Hb. induction xs as [|x xs IH]; simpl.
  - apply determined_ret.
  - apply determined_bind; [apply Hb | intros _; exact IH].
Qed.

Lemma determined_int_or_raise text : determined_by obs (int_or_raise text).
Proof.
  unfold int_or_raise.
  destruct (Py.int text); [apply determined_ret | apply determined_raise].
Qed.

Lemma determined_py_lt x n : determined_by obs (py_lt x n).
Proof. destruct x; [apply determined_ret | apply determined_raise]. Qed.

Lemma determined_py_floordiv x n : determined_by obs (py_floordiv x n).
Proof. destruct x; [apply determined_ret | apply determined_raise]. Qed.

End Frame.

(** ** No method reassigns the instance's attributes *)

Create HintDb frame.

#[local] Hint Resolve preserves_ret preserves_mret preserves_raise
  preserves_int_or_raise preserves_py_lt preserves_py_floordiv
  preserves_subscript : frame.

Ltac frame_step :=
  match goal with
  | |- preserves _ (mbind _ _) => apply preserves_bind; [| intros ?]
  | |- preserves _ (try_except _ _ _) => apply preserves_try_except
  | |- preserves _ (for_each _ _) => apply preserves_for_each; intros ?
  | |- preserves _ (if ?b then _ else _) => destruct b
  | |- preserves _ (match ?x with _ => _ end) => destruct x
  | |- preserves _ _ => solve [eauto with frame]
  end.

Ltac frame := repeat frame_step.

Lemma emit_self e : preserves self (emit e).
Proof. intros w. reflexivity. Qed.

Lemma print_self line : preserves self (print line).
Proof. apply emit_self. Qed.

Lemma setenv_self key value : preserves self (setenv key value).
Proof. intros w. reflexivity. Qed.

Lemma getattr_self attr : preserves self (getattr attr).
Proof. intros w. unfold getattr. destruct (attr (self w)); reflexivity. Qed.

#[local] Hint Resolve emit_self print_self setenv_self getattr_self : frame.

Lemma subprocess_run_self sys argv : preserves self (subprocess_run sys argv).
Proof. unfold subprocess_run. frame. Qed.

Lemma import_torch_self sys : preserves self (import_torch sys).
Proof. unfold import_torch. frame. Qed.

Lemma import_psutil_self sys : preserves self (import_psutil sys).
Proof. unfold import_psutil. frame. Qed.

#[local] Hint Resolve subprocess_run_self import_torch_self
  import_psutil_self : frame.

Lemma in_world_self {L A} (m : M A) :
  preserves self m -> preserves (@frame_self L) (in_world m).
Proof.
  intros Hm [l w]. unfold in_world, frame_self. simpl.
  specialize (Hm w). destruct (m w) as [r w']. exact Hm.
Qed.

Lemma assign_self key value : preserves frame_self (assign key value).
Proof. intros lw. reflexivity. Qed.

Lemma with_local_self {L A} (init : L) (body : ST (L * world) A) :
  preserves frame_self body -> preserves self (with_local init body).
Proof.
  intros Hb w. unfold with_local.
  specialize (Hb (init, w)). unfold frame_self in Hb.
  destruct (body (init, w)) as [[a|e] lw]; exact Hb.
Qed.

#[local] Hint Resolve in_world_self assign_self : frame.

Lemma detect_self sys : preserves self (_detect_apple_silicon sys).
Proof. unfold _detect_apple_silicon. frame. Qed.

Lemma check_mps_self sys : preserves self (_check_mps_availability sys).
Proof. unfold _check_mps_availability. frame. Qed.

Lemma check_cuda_self sys : preserves self (_check_cuda_availability sys).
Proof. unfold _check_cuda_availability. frame. Qed.

#[local] Hint Resolve detect_self check_mps_self check_cuda_self : frame.

Lemma get_optimal_device_self sys prefer_mps :
  preserves self (get_optimal_device sys prefer_mps).
Proof. unfold get_optimal_device. frame. Qed.

Lemma apply_self sys : preserves self (apply_apple_silicon_optimizations sys).
Proof. unfold apply_apple_silicon_optimizations. frame. Qed.

Lemma get_memory_info_self sys : preserves self (get_memory_info sys).
Proof. unfold get_memory_info. apply with_local_self. frame. Qed.

#[local] Hint Resolve get_optimal_device_self apply_self
  get_memory_info_self : frame.

Lemma get_recommended_settings_self sys :
  preserves self (get_recommended_settings sys).
Proof. unfold get_recommended_settings. frame. Qed.

#[local] Hint Resolve get_recommended_settings_self : frame.

Lemma print_memory_line_self label v :
  preserves self (print_memory_line label v).
Proof. unfold print_memory_line. frame. Qed.

#[local] Hint Resolve print_memory_line_self : frame.

Lemma print_system_info_self sys : preserves self (print_system_info sys).
Proof. unfold print_system_info. frame. Qed.

Lemma run_op_self call w : self (run_op call w) = self w.
Proof.
  destruct call as [sys op]. unfold run_op. simpl.
  destruct op;
    [ apply detect_self | apply check_mps_self | apply check_cuda_self
    | apply get_optimal_device_self | apply apply_self
    | apply get_memory_info_self | apply get_recommended_settings_self
    | apply print_system_info_self ].
Qed.

Lemma run_ops_self calls w : self (run_ops calls w) = self w.
Proof.
  unfold run_ops. revert w.
  induction calls as [|call calls IH]; intros w; simpl.
  - reflexivity.
  - rewrite IH. apply run_op_self.
Qed.

(** ** The outcome of a query depends on the world only through the instance *)

Create HintDb determ.

#[local] Hint Resolve determined_ret determined_mret determined_raise
  determined_int_or_raise determined_py_lt determined_py_floordiv : determ.

Ltac determ_step :=
  match goal with
  | |- determined_by _ (mbind _ _) => apply determined_bind; [| intros ?]
  | |- determined_by _ (try_except _ _ _) => apply determined_try_except
  | |- determined_by _ (for_each _ _) => apply determined_for_each; intros ?
  | |- determined_by _ (if ?b then _ else _) => destruct b
  | |- determined_by _ (match ?x with _ => _ end) => destruct x
  | |- determined_by _ _ => solve [eauto with determ]
  end.

Ltac determ := repeat determ_step.

Lemma emit_determined e : determined_by self (emit e).
Proof. intros w w' H. split; [reflexivity | exact H]. Qed.

Lemma getattr_determined attr : determined_by self (getattr attr).
Proof.
  intros w w' H. unfold getattr. rewrite H.
  destruct (attr (self w')); split; simpl; congruence.
Qed.

#[local] Hint Resolve emit_determined getattr_determined : determ.

Lemma subprocess_run_determined sys argv :
  determined_by self (subprocess_run sys argv).
Proof. unfold subprocess_run. determ. Qed.

Lemma import_torch_determined sys : determined_by self (import_torch sys).
Proof. unfold import_torch. determ. Qed.

Lemma import_psutil_determined sys : determined_by self (import_psutil sys).
Proof. unfold import_psutil. determ. Qed.

#[local] Hint Resolve subprocess_run_determined import_torch_determined
  import_psutil_determined : determ.

Lemma in_world_determined {L A} (m : M A) :
  determined_by self m -> determined_by (@frame_local_self L) (in_world m).
Proof.
  intros Hm [l w] [l' w'] H. unfold frame_local_self in *. simpl in H.
  injection H as -> Hs. unfold in_world. simpl.
  destruct (Hm w w' Hs) as [Hr Ho].
  destruct (m w) as [r w1], (m w') as [r' w1']. simpl in *.
  split; congruence.
Qed.

Lemma assign_determined key value :
  determined_by frame_local_self (assign key value).
Proof.
  intros [l w] [l' w'] H. unfold frame_local_self in *. simpl in *.
  injection H as -> Hs. split; congruence.
Qed.

Lemma with_local_determined {L A} (init : L) (body : ST (L * world) A) :
  determined_by frame_local_self body ->
  determined_by self (with_local init body).
Proof.
  intros Hb w w' H. unfold with_local.
  destruct (Hb (init, w) (init, w')) as [Hr Ho].
  { unfold frame_local_self. simpl. congruence. }
  unfold frame_local_self in Ho.
  destruct (body (init, w)) as [[a|e] [l w1]],
           (body (init, w')) as [[a'|e'] [l' w1']];
    simpl in *; try discriminate; injection Ho as -> Hs.
  - split; [reflexivity | exact Hs].
  - injection Hr as ->. split; [reflexivity | exact Hs].
Qed.

#[local] Hint Resolve in_world_determined assign_determined : determ.

Lemma check_cuda_determined sys :
  determined_by self (_check_cuda_availability sys).
Proof. unfold _check_cuda_availability. determ. Qed.

#[local] Hint Resolve check_cuda_determined : determ.

Lemma get_optimal_device_determined sys prefer_mps :
  determined_by self (get_optimal_device sys prefer_mps).
Proof. unfold get_optimal_device. determ. Qed.

Lemma get_memory_info_determined sys :
  determined_by self (get_memory_info sys).
Proof. unfold get_memory_info. apply with_local_determined. determ. Qed.

#[local] Hint Resolve get_optimal_device_determined
  get_memory_info_determined : determ.

Lemma get_recommended_settings_determined sys :
  determined_by self (get_recommended_settings sys).
Proof. unfold get_recommended_settings. determ. Qed.

(** ** Idempotence of the settings query *)

(** C9. With the system state [sys] fixed, two successive calls of
    [get_recommended_settings] on the same instance end the same way: the
    second returns the very record the first returned (or raises the same
    exception), whatever the first call left in the world. *)
Theorem get_recommended_settings_twice (sys : system) (w : world) :
  let first := get_recommended_settings sys w in
  let second := get_recommended_settings sys (snd first) in
  fst second = fst first.
Proof.
  intros first second. subst first second.
  apply (get_recommended_settings_determined sys).
  apply get_recommended_settings_self.
Qed.

(** ** What each query returns *)

Ltac unfold_monad :=
  unfold mbind, st_mbind, st_bind, mret, st_mret, st_ret, raise, try_except.

Lemma check_cuda_returns sys w :
  _check_cuda_availability sys w
  = (Ret (cuda_available sys), log w [EvImport "torch"]).
Proof.
  unfold _check_cuda_availability, import_torch, cuda_available, emit, log.
  unfold_monad. destruct (torch sys); reflexivity.
Qed.

Lemma get_optimal_device_returns sys prefer_mps w a m :
  self w = {| is_apple_silicon := Some a; mps_available := Some m |} ->
  get_optimal_device sys prefer_mps w
  = (Ret (spec_device a prefer_mps m (cuda_available sys)),
     if a && prefer_mps && m then w else log w [EvImport "torch"]).
Proof.
  intros Hself. unfold get_optimal_device, getattr, spec_device.
  unfold_monad. rewrite Hself. simpl.
  destruct a, prefer_mps; simpl; rewrite ?Hself; simpl;
    try destruct m; simpl; try reflexivity;
    rewrite check_cuda_returns; destruct (cuda_available sys); reflexivity.
Qed.

Lemma log_nil w : log w [] = w.
Proof. unfold log. rewrite app_nil_r. destruct w; reflexivity. Qed.

(** Detection never raises, and its answer does not depend on the world. *)
Lemma detect_returns sys :
  exists b evs, forall w, _detect_apple_silicon sys w = (Ret b, log w evs).
Proof.
  unfold _detect_apple_silicon, subprocess_run, emit. unfold_monad.
  destruct (String.eqb (platform_system sys) "Darwin"); simpl.
  2: { exists false, []. intros w. rewrite log_nil. reflexivity. }
  destruct (String.eqb (Py.lower (platform_machine sys)) "arm64").
  { exists true, []. intros w. rewrite log_nil. reflexivity. }
  destruct (run_command sys _) as [rc out| |]; simpl;
    eexists _, _; intros w; reflexivity.
Qed.

Lemma detect_not_darwin sys w :
  platform_system sys <> "Darwin" ->
  _detect_apple_silicon sys w = (Ret false, w).
Proof.
  intros H. apply String.eqb_neq in H.
  unfold _detect_apple_silicon. rewrite H. reflexivity.
Qed.

Lemma check_mps_returns sys w a m0 :
  self w = {| is_apple_silicon := Some a; mps_available := m0 |} ->
  exists m evs,
    _check_mps_availability sys w = (Ret m, log w evs) /\
    (m = true -> a = true) /\
    (a = false -> evs = []).
Proof.
  intros Hself. unfold _check_mps_availability, getattr, import_torch, emit.
  unfold_monad. rewrite Hself. simpl. destruct a; simpl.
  - destruct (torch sys) as [t|]; simpl; eexists _, _; repeat split;
      try reflexivity; discriminate.
  - exists false, []. rewrite log_nil. repeat split; discriminate.
Qed.

(** Construction never raises, assigns both attributes, establishes the
    invariant and leaves [os.environ] alone. *)
Lemma new_optimizer_returns sys w :
  exists a m evs,
    new_optimizer sys w
    = (Ret tt, {| self := {| is_apple_silicon := Some a;
                             mps_available := Some m |};
                  environ := environ w;
                  trace := trace w ++ evs |}) /\
    (m = true -> a = true) /\
    fst (_detect_apple_silicon sys w) = Ret a.
Proof.
  unfold new_optimizer, __init__.
  set (w0 := {| self := _; environ := environ w; trace := trace w |}).
  destruct (detect_returns sys) as (a & evs1 & Hd).
  unfold mbind at 1, st_mbind, st_bind. rewrite (Hd w0).
  unfold mbind at 1, st_mbind, st_bind. simpl.
  set (w1 := {| self := _; environ := _; trace := _ |}).
  destruct (check_mps_returns sys w1 a None eq_refl)
    as (m & evs2 & Hm & Hinv & _).
  unfold mbind, st_mbind, st_bind. rewrite Hm. simpl.
  exists a, m, (evs1 ++ evs2)%list. rewrite app_assoc, (Hd w). auto.
Qed.

(** The memory probe never raises: every exception its [try] block can
    raise is one of the caught classes. *)
Lemma get_memory_info_returns sys :
  exists mi evs, forall w, get_memory_info sys w = (Ret mi, log w evs).
Proof.
  unfold get_memory_info, with_local, in_world, subprocess_run,
    import_psutil, int_or_raise, assign, emit.
  unfold_monad.
  destruct (String.eqb (platform_system sys) "Darwin"); simpl.
  - destruct (run_command sys _) as [rc out| |]; simpl.
    + destruct (Py.int (Py.strip out)); simpl.
      * destruct (psutil_available sys); simpl;
          eexists _, _; intros w; unfold log; simpl;
          rewrite <- ?app_assoc; reflexivity.
      * eexists _, _; intros w; reflexivity.
    + eexists _, _; intros w; reflexivity.
    + eexists _, _; intros w; reflexivity.
  - destruct (psutil_available sys); simpl;
      eexists _, _; intros w; reflexivity.
Qed.

(** A failed probe leaves both keys present with the value [None]. *)
Lemma get_memory_info_failed sys w :
  memory_probe_fails sys = true ->
  exists mi w',
    get_memory_info sys w = (Ret mi, w') /\
    mi !! "total_gb" = Some None /\
    mi !! "available_gb" = Some None.
Proof.
  unfold memory_probe_fails, memsize_query_fails, memsize_argv.
  unfold get_memory_info, with_local, in_world, subprocess_run,
    import_psutil, int_or_raise, assign, emit.
  unfold_monad.
  destruct (String.eqb (platform_system sys) "Darwin"); simpl.
  - destruct (run_command sys _) as [rc out| |]; simpl.
    + destruct (Py.int (Py.strip out)); simpl.
      * destruct (psutil_available sys); simpl; [discriminate|].
        intros _. eexists _, _. split; [reflexivity|]. split; reflexivity.
      * intros _. eexists _, _. split; [reflexivity|]. split; reflexivity.
    + intros _. eexists _, _. split; [reflexivity|]. split; reflexivity.
    + intros _. eexists _, _. split; [reflexivity|]. split; reflexivity.
  - destruct (psutil_available sys); simpl; [discriminate|].
    intros _. eexists _, _. split; [reflexivity|]. split; reflexivity.
Qed.

(** A probe that does not fail reports the available memory, and the total
    memory on Darwin only: elsewhere the key stays missing. *)
Lemma get_memory_info_succeeded sys w :
  memory_probe_fails sys = false ->
  exists mi w' available,
    get_memory_info sys w = (Ret mi, w') /\
    psutil_available sys = Some available /\
    mi !! "available_gb" = Some (Some (available / 1024 ^ 3)) /\
    (platform_system sys <> "Darwin" -> mi !! "total_gb" = None) /\
    (platform_system sys = "Darwin" ->
     exists rc out bytes,
       run_command sys memsize_argv = Completed rc out /\
       Py.int (Py.strip out) = Some bytes /\
       mi !! "total_gb" = Some (Some (bytes / 1024 ^ 3))).
Proof.
  unfold memory_probe_fails, memsize_query_fails, memsize_argv.
  unfold get_memory_info, with_local, in_world, subprocess_run,
    import_psutil, int_or_raise, assign, emit.
  unfold_monad.
  destruct (String.eqb_spec (platform_system sys) "Darwin") as [Hd|Hd]; simpl.
  - destruct (run_command sys _) as [rc out| |]; simpl; try discriminate.
    destruct (Py.int (Py.strip out)) as [bytes|] eqn:Hint;
      simpl; try discriminate.
    destruct (psutil_available sys) as [available|]; simpl; try discriminate.
    intros _. eexists _, _, available. split; [reflexivity|].
    repeat split; try reflexivity; [congruence|].
    intros _. exists rc, out, bytes. repeat split; try reflexivity.
    exact Hint.
  - destruct (psutil_available sys) as [available|]; simpl; try discriminate.
    intros _. eexists _, _, available. split; [reflexivity|].
    repeat split; try reflexivity. intros; congruence.
Qed.

(** The settings query, given what the memory probe returned. *)
Lemma get_recommended_settings_unfold sys w mi w1 a m :
  get_memory_info sys w = (Ret mi, w1) ->
  self w = {| is_apple_silicon := Some a; mps_available := Some m |} ->
  get_recommended_settings sys w
  = match default (Some 8) (mi !! "total_gb") with
    | Some total_gb =>
        (Ret {| device := spec_device a true m (cuda_available sys);
                offload_to_cpu := total_gb <? 32;
                offload_dit_to_cpu := total_gb <? 16;
                use_flash_attention := false;
                backend := "pt";
                batch_size := Z.min 4 (Z.max 1 (total_gb / 8));
                precision := if m then "float16" else "float32" |},
         if a && true && m then w1 else log w1 [EvImport "torch"])
    | None => (Raise TypeError, w1)
    end.
Proof.
  intros Hmi Hself.
  assert (Hself1 : self w1 = self w).
  { pose proof (get_memory_info_self sys w) as H. rewrite Hmi in H. exact H. }
  rewrite Hself in Hself1.
  unfold get_recommended_settings.
  unfold mbind at 1, st_mbind, st_bind. rewrite Hmi.
  destruct (default (Some 8) (mi !! "total_gb")) as [total_gb|]; simpl.
  2: reflexivity.
  unfold_monad. rewrite (get_optimal_device_returns sys true w1 a m Hself1).
  unfold getattr.
  destruct (a && true && m); simpl; rewrite Hself1; reflexivity.
Qed.

Example get_recommended_settings_twice_sample :
  let sys := mac_with 16 in
  let first := get_recommended_settings sys (constructed_world true true) in
  let second := get_recommended_settings sys (snd first) in
  fst first
  = Ret {| device := "mps"; offload_to_cpu := true;
           offload_dit_to_cpu := false; use_flash_attention := false;
           backend := "pt"; batch_size := 2; precision := "float16" |} /\
  fst second = fst first /\
  trace (snd second) <> trace (snd first).
Proof.
  split; [vm_compute; reflexivity|].
  split; [vm_compute; reflexivity|].
  vm_compute. discriminate.
Qed.

(** ** Device choice *)

(** C4. For every combination of the target-architecture flag, the
    [prefer_mps] argument, the accelerated-backend flag and the answer of the
    secondary-backend check, [get_optimal_device] returns the first match
    of: "mps" if target architecture, preferred and available; otherwise
    "cuda" if the secondary backend is available; otherwise "cpu".  With
    [prefer_mps = false] it never returns "mps". *)
Theorem get_optimal_device_decision
    (sys : system) (target prefer accelerated : bool)
    (env : gmap string string) (tr : list event) :
  let w := {| self := {| is_apple_silicon := Some target;
                         mps_available := Some accelerated |};
              environ := env; trace := tr |} in
  exists secondary,
    fst (_check_cuda_availability sys w) = Ret secondary /\
    fst (get_optimal_device sys prefer w)
    = Ret (spec_device target prefer accelerated secondary) /\
    fst (get_optimal_device sys false w) <> Ret "mps".
Proof.
  intros w. exists (cuda_available sys).
  rewrite check_cuda_returns.
  rewrite !(get_optimal_device_returns sys _ w target accelerated eq_refl).
  repeat split. simpl. unfold spec_device.
  destruct target; simpl; destruct (cuda_available sys); discriminate.
Qed.

Example get_optimal_device_samples :
  fst (get_optimal_device (mac_with 16) true (constructed_world true true))
  = Ret "mps" /\
  fst (get_optimal_device (mac_with 16) false (constructed_world true true))
  = Ret "cpu" /\
  fst (get_optimal_device linux_cuda true (constructed_world false false))
  = Ret "cuda".
Proof. repeat split; vm_compute; reflexivity. Qed.

(** ** Environment *)

(** C8. When the target architecture was not detected,
    [apply_apple_silicon_optimizations] returns at once: the world after
    the call, and with it the process environment, is the world before. *)
Theorem apply_without_apple_silicon (sys : system) (w : world) :
  is_apple_silicon (self w) = Some false ->
  apply_apple_silicon_optimizations sys w = (Ret tt, w) /\
  environ (snd (apply_apple_silicon_optimizations sys w)) = environ w.
Proof.
  intros H. unfold apply_apple_silicon_optimizations, getattr.
  unfold_monad. rewrite H. simpl. split; reflexivity.
Qed.

Lemma apply_without_apple_silicon_witness :
  let w := snd (new_optimizer linux_cuda no_world) in
  apply_apple_silicon_optimizations linux_cuda w = (Ret tt, w) /\
  environ (snd (apply_apple_silicon_optimizations linux_cuda w)) = environ w.
Proof.
  apply (apply_without_apple_silicon linux_cuda
           (snd (new_optimizer linux_cuda no_world))).
  reflexivity.
Defined.

(** On the target architecture the call does write the table. *)
Example apply_on_apple_silicon :
  let w := snd (apply_apple_silicon_optimizations (mac_with 16)
                  (constructed_world true true)) in
  environ w !! "OMP_NUM_THREADS" = Some "8" /\
  environ w !! "TOKENIZERS_PARALLELISM" = Some "false" /\
  environ w !! "PYTORCH_ENABLE_MPS_FALLBACK" = Some "1" /\
  size (environ w) = 8%nat.
Proof. repeat split; vm_compute; reflexivity. Qed.

(** ** Settings derived from the probed memory *)

(** C5. Whenever the memory probe reports a total of [total_gb] GiB, the
    settings query returns a record with [offload_to_cpu] true exactly when
    [total_gb < 32] and [offload_dit_to_cpu] true exactly when
    [total_gb < 16]: false at 32 and true at 31 for the first, false at 16
    and true at 15 for the second. *)
Theorem offload_thresholds
    (sys : system) (w w1 : world) (a m : bool)
    (mi : gmap string (option Z)) (total_gb : Z) :
  self w = {| is_apple_silicon := Some a; mps_available := Some m |} ->
  get_memory_info sys w = (Ret mi, w1) ->
  mi !! "total_gb" = Some (Some total_gb) ->
  exists r w2,
    get_recommended_settings sys w = (Ret r, w2) /\
    (offload_to_cpu r = true <-> total_gb < 32) /\
    (offload_dit_to_cpu r = true <-> total_gb < 16) /\
    (total_gb = 32 -> offload_to_cpu r = false) /\
    (total_gb = 31 -> offload_to_cpu r = true) /\
    (total_gb = 16 -> offload_dit_to_cpu r = false) /\
    (total_gb = 15 -> offload_dit_to_cpu r = true).
Proof.
  intros Hself Hmi Htotal.
  rewrite (get_recommended_settings_unfold sys w mi w1 a m Hmi Hself).
  rewrite Htotal. simpl. eexists _, _. split; [reflexivity|]. simpl.
  rewrite !Z.ltb_lt.
  repeat split; try tauto; intros ->; reflexivity.
Qed.

Lemma offload_thresholds_witness :
  exists r w2,
    get_recommended_settings (mac_with 32) (constructed_world true true)
    = (Ret r, w2) /\
    (offload_to_cpu r = true <-> 32 < 32) /\
    (offload_dit_to_cpu r = true <-> 32 < 16) /\
    (32 = 32 -> offload_to_cpu r = false) /\
    (32 = 31 -> offload_to_cpu r = true) /\
    (32 = 16 -> offload_dit_to_cpu r = false) /\
    (32 = 15 -> offload_dit_to_cpu r = true).
Proof.
  eapply (offload_thresholds (mac_with 32) (constructed_world true true)).
  - reflexivity.
  - vm_compute. reflexivity.
  - vm_compute. reflexivity.
Defined.

Example offload_boundaries :
  offload_to_cpu <$> fst (get_recommended_settings (mac_with 32)
                            (constructed_world true true)) = Ret false /\
  offload_to_cpu <$> fst (get_recommended_settings (mac_with 31)
                            (constructed_world true true)) = Ret true /\
  offload_dit_to_cpu <$> fst (get_recommended_settings (mac_with 16)
                                (constructed_world true true)) = Ret false /\
  offload_dit_to_cpu <$> fst (get_recommended_settings (mac_with 15)
                                (constructed_world true true)) = Ret true.
Proof. repeat split; vm_compute; reflexivity. Qed.

Lemma spec_batch_size_clamp total_gb :
  Z.min 4 (Z.max 1 (total_gb / 8)) = spec_batch_size total_gb.
Proof.
  unfold spec_batch_size. cbv zeta.
  destruct (Z.ltb_spec (total_gb / 8) 1), (Z.ltb_spec 4 (total_gb / 8)); lia.
Qed.

(** C6. Whenever the memory probe reports a total of [total_gb] GiB, the
    settings query returns a record whose [batch_size] is [total_gb]
    divided by 8 rounded down, raised to 1 when smaller and capped at 4 when
    larger: 1 for 4 GiB, 2 for 16 GiB and 4 (not 5) for 40 GiB. *)
Theorem batch_size_clamped
    (sys : system) (w w1 : world) (a m : bool)
    (mi : gmap string (option Z)) (total_gb : Z) :
  self w = {| is_apple_silicon := Some a; mps_available := Some m |} ->
  get_memory_info sys w = (Ret mi, w1) ->
  mi !! "total_gb" = Some (Some total_gb) ->
  exists r w2,
    get_recommended_settings sys w = (Ret r, w2) /\
    batch_size r = spec_batch_size total_gb /\
    1 <= batch_size r <= 4 /\
    (1 <= total_gb / 8 <= 4 -> batch_size r = total_gb / 8) /\
    (total_gb = 4 -> batch_size r = 1) /\
    (total_gb = 16 -> batch_size r = 2) /\
    (total_gb = 40 -> batch_size r = 4).
Proof.
  intros Hself Hmi Htotal.
  rewrite (get_recommended_settings_unfold sys w mi w1 a m Hmi Hself).
  rewrite Htotal. simpl. eexists _, _. split; [reflexivity|]. simpl.
  split; [apply spec_batch_size_clamp|].
  repeat split; try lia; intros ->; reflexivity.
Qed.

Lemma batch_size_clamped_witness :
  exists r w2,
    get_recommended_settings (mac_with 40) (constructed_world true true)
    = (Ret r, w2) /\
    batch_size r = spec_batch_size 40 /\
    1 <= batch_size r <= 4 /\
    (1 <= 40 / 8 <= 4 -> batch_size r = 40 / 8) /\
    (40 = 4 -> batch_size r = 1) /\
    (40 = 16 -> batch_size r = 2) /\
    (40 = 40 -> batch_size r = 4).
Proof.
  eapply (batch_size_clamped (mac_with 40) (constructed_world true true)).
  - reflexivity.
  - vm_compute. reflexivity.
  - vm_compute. reflexivity.
Defined.

Example batch_size_samples :
  batch_size <$> fst (get_recommended_settings (mac_with 4)
                        (constructed_world true true)) = Ret 1 /\
  batch_size <$> fst (get_recommended_settings (mac_with 16)
                        (constructed_world true true)) = Ret 2 /\
  batch_size <$> fst (get_recommended_settings (mac_with 40)
                        (constructed_world true true)) = Ret 4.
Proof. repeat split; vm_compute; reflexivity. Qed.

(** Off Darwin the total is never probed: the key is missing and the
    default of 8 GiB applies. *)
Example settings_on_linux :
  fst (get_recommended_settings linux_cuda (constructed_world false false))
  = Ret {| device := "cuda"; offload_to_cpu := true;
           offload_dit_to_cpu := true; use_flash_attention := false;
           backend := "pt"; batch_size := 1; precision := "float32" |}.
Proof. vm_compute. reflexivity. Qed.

(** The scenario of the specification: target architecture, accelerated
    backend, 8 GiB. *)
Example settings_on_8gb_mac :
  fst (get_recommended_settings (mac_with 8) (constructed_world true true))
  = Ret {| device := "mps"; offload_to_cpu := true;
           offload_dit_to_cpu := true; use_flash_attention := false;
           backend := "pt"; batch_size := 1; precision := "float16" |}.
Proof. vm_compute. reflexivity. Qed.

(** ** A failed memory probe *)

(** The settings query raises exactly when the memory probe failed: the
    handler stores [None] under "total_gb", the default of [.get] is not
    used for a key that is present, and [None < 32] is a [TypeError]. *)
Lemma get_recommended_settings_raises_iff sys w a m :
  self w = {| is_apple_silicon := Some a; mps_available := Some m |} ->
  fst (get_recommended_settings sys w) = Raise TypeError
  <-> memory_probe_fails sys = true.
Proof.
  intros Hself. destruct (memory_probe_fails sys) eqn:Hfail.
  - destruct (get_memory_info_failed sys w Hfail) as (mi & w1 & Hmi & Ht & _).
    rewrite (get_recommended_settings_unfold sys w mi w1 a m Hmi Hself), Ht.
    simpl. tauto.
  - destruct (get_memory_info_succeeded sys w Hfail)
      as (mi & w1 & av & Hmi & _ & _ & Hother & Hdarwin).
    rewrite (get_recommended_settings_unfold sys w mi w1 a m Hmi Hself).
    destruct (decide (platform_system sys = "Darwin")) as [Hd|Hd].
    + destruct (Hdarwin Hd) as (rc & out & bytes & _ & _ & Ht).
      rewrite Ht. simpl. split; discriminate.
    + rewrite (Hother Hd). simpl. split; discriminate.
Qed.

(** C2 (the code departs from it). When the memory probe fails,
    [get_memory_info] does report both "total_gb" and "available_gb" as
    [None]; but [get_recommended_settings] then raises [TypeError] instead
    of computing with 8 GiB. *)
Theorem failed_probe_settings_raise
    (sys : system) (w : world) (a m : bool) :
  self w = {| is_apple_silicon := Some a; mps_available := Some m |} ->
  memory_probe_fails sys = true ->
  (exists mi w1,
     get_memory_info sys w = (Ret mi, w1) /\
     mi !! "total_gb" = Some None /\
     mi !! "available_gb" = Some None) /\
  fst (get_recommended_settings sys w) = Raise TypeError.
Proof.
  intros Hself Hfail. split.
  - apply get_memory_info_failed, Hfail.
  - apply (get_recommended_settings_raises_iff sys w a m Hself), Hfail.
Qed.

Lemma failed_probe_settings_raise_witness :
  (exists mi w1,
     get_memory_info mac_without_psutil (constructed_world true true)
     = (Ret mi, w1) /\
     mi !! "total_gb" = Some None /\
     mi !! "available_gb" = Some None) /\
  fst (get_recommended_settings mac_without_psutil
         (constructed_world true true)) = Raise TypeError.
Proof.
  apply (failed_probe_settings_raise mac_without_psutil
           (constructed_world true true) true true); reflexivity.
Defined.

(** ** Which accessors can raise *)

Lemma apply_returns sys w a m :
  self w = {| is_apple_silicon := Some a; mps_available := Some m |} ->
  exists w', apply_apple_silicon_optimizations sys w = (Ret tt, w').
Proof.
  intros Hself. unfold apply_apple_silicon_optimizations, getattr.
  unfold_monad. rewrite Hself. destruct a; simpl; eexists; reflexivity.
Qed.

(** On a constructed instance every public accessor but the settings query
    returns, whatever the system does. *)
Lemma other_accessors_return sys w a m prefer_mps :
  self w = {| is_apple_silicon := Some a; mps_available := Some m |} ->
  (exists d w', get_optimal_device sys prefer_mps w = (Ret d, w')) /\
  (exists mi w', get_memory_info sys w = (Ret mi, w')) /\
  (exists w', apply_apple_silicon_optimizations sys w = (Ret tt, w')) /\
  Exports.is_apple_silicon w = (Ret a, w).
Proof.
  intros Hself. repeat split.
  - rewrite (get_optimal_device_returns sys prefer_mps w a m Hself). eauto.
  - destruct (get_memory_info_returns sys) as (mi & evs & H).
    rewrite H. eauto.
  - apply (apply_returns sys w a m Hself).
  - unfold Exports.is_apple_silicon, getattr. rewrite Hself. reflexivity.
Qed.

(** C1 (the code departs from it). On an Apple Silicon Mac without psutil,
    construction returns and then [get_recommended_settings], called on
    the instance or through the module-level function, raises
    [TypeError]. *)
Theorem settings_query_raises_without_psutil :
  let w := snd (new_optimizer mac_without_psutil no_world) in
  fst (new_optimizer mac_without_psutil no_world) = Ret tt /\
  fst (get_recommended_settings mac_without_psutil w) = Raise TypeError /\
  fst (Exports.get_recommended_settings mac_without_psutil w)
  = Raise TypeError.
Proof. repeat split; vm_compute; reflexivity. Qed.

(** ** The fallback brand-string query *)

(** A timeout or a missing binary is "not detected", and nothing is
    raised. *)
Lemma detect_failed_command sys w :
  platform_system sys = "Darwin" ->
  Py.lower (platform_machine sys) <> "arm64" ->
  run_command sys brand_argv = TimedOut \/
  run_command sys brand_argv = NotFound ->
  fst (_detect_apple_silicon sys w) = Ret false.
Proof.
  intros Hd Hm Hrun. unfold _detect_apple_silicon, subprocess_run, emit.
  unfold_monad. fold brand_argv.
  apply String.eqb_eq in Hd. apply String.eqb_neq in Hm.
  rewrite Hd, Hm. simpl.
  destruct Hrun as [-> | ->]; reflexivity.
Qed.

(** A run that completes is judged by its output alone; the exit status
    is never read. *)
Lemma detect_completed_command sys w rc out :
  platform_system sys = "Darwin" ->
  Py.lower (platform_machine sys) <> "arm64" ->
  run_command sys brand_argv = Completed rc out ->
  fst (_detect_apple_silicon sys w)
  = Ret (Py.contains "apple" (Py.lower (Py.strip out))).
Proof.
  intros Hd Hm Hrun. unfold _detect_apple_silicon, subprocess_run, emit.
  unfold_monad. fold brand_argv.
  apply String.eqb_eq in Hd. apply String.eqb_neq in Hm.
  rewrite Hd, Hm, Hrun. reflexivity.
Qed.

(** C7 (the code departs from it). The brand-string query of
    [mac_failed_brand_query] exits with status 1, yet detection answers
    [True] and the constructed instance is flagged as Apple Silicon. *)
Theorem detect_accepts_nonzero_exit :
  run_command mac_failed_brand_query brand_argv = Completed 1 "Apple M1" /\
  fst (_detect_apple_silicon mac_failed_brand_query no_world) = Ret true /\
  is_apple_silicon (self (snd (new_optimizer mac_failed_brand_query no_world)))
  = Some true.
Proof. repeat split; vm_compute; reflexivity. Qed.

(** ** The two backend checks off the target OS *)

(** C3, as stated, fails: on a Linux host with a CUDA build of torch the
    secondary-backend check imports torch and answers [True]. *)
Lemma secondary_check_answers_on_linux :
  platform_system linux_cuda <> "Darwin" /\
  (let w := snd (new_optimizer linux_cuda no_world) in
   fst (_check_cuda_availability linux_cuda w) = Ret true /\
   trace (snd (_check_cuda_availability linux_cuda w))
   = (trace w ++ [EvImport "torch"])%list).
Proof. split; [discriminate|]. split; vm_compute; reflexivity. Qed.

(** C3, amended. Off the target OS, construction sets both flags to
    false without running a command or importing anything, and the
    accelerated-backend check returns false and leaves the world as it
    is; the secondary-backend check does not look at the OS: it imports
    torch and returns what [torch.cuda.is_available()] answers, false
    when torch is absent. *)
Theorem backend_checks_off_darwin (sys : system) (w : world) :
  platform_system sys <> "Darwin" ->
  let w1 := snd (new_optimizer sys w) in
  new_optimizer sys w = (Ret tt, w1) /\
  self w1 = {| is_apple_silicon := Some false;
               mps_available := Some false |} /\
  trace w1 = trace w /\
  _check_mps_availability sys w1 = (Ret false, w1) /\
  _check_cuda_availability sys w1
  = (Ret (cuda_available sys), log w1 [EvImport "torch"]).
Proof.
  intros Hos w1.
  assert (Hnew : new_optimizer sys w
                 = (Ret tt, {| self := {| is_apple_silicon := Some false;
                                          mps_available := Some false |};
                               environ := environ w; trace := trace w |})).
  { unfold new_optimizer, __init__.
    unfold mbind at 1, st_mbind, st_bind.
    rewrite (detect_not_darwin sys _ Hos). reflexivity. }
  subst w1. rewrite Hnew. simpl.
  repeat split. apply check_cuda_returns.
Qed.

Lemma backend_checks_off_darwin_witness :
  let w1 := snd (new_optimizer linux_cuda no_world) in
  new_optimizer linux_cuda no_world = (Ret tt, w1) /\
  self w1 = {| is_apple_silicon := Some false;
               mps_available := Some false |} /\
  trace w1 = trace no_world /\
  _check_mps_availability linux_cuda w1 = (Ret false, w1) /\
  _check_cuda_availability linux_cuda w1
  = (Ret (cuda_available linux_cuda), log w1 [EvImport "torch"]).
Proof.
  apply (backend_checks_off_darwin linux_cuda no_world). discriminate.
Defined.

(** ** The class invariant *)

(** C10. Construction assigns both attributes with [mps_available]
    implying [is_apple_silicon]; no sequence of method calls, against
    whatever systems, changes either attribute; so a settings query that
    returns precision "float16" runs on an instance flagged as Apple
    Silicon, whose detection answered [True] at construction. *)
Theorem mps_only_on_apple_silicon
    (sys : system) (w0 : world) (calls : list (system * operation)) :
  let w1 := snd (new_optimizer sys w0) in
  let w := run_ops calls w1 in
  constructed (self w1) /\
  mps_implies_apple_silicon (self w1) /\
  self w = self w1 /\
  forall sys' r w',
    get_recommended_settings sys' w = (Ret r, w') ->
    precision r = "float16" ->
    is_apple_silicon (self w) = Some true /\
    fst (_detect_apple_silicon sys w0) = Ret true.
Proof.
  intros w1 w.
  destruct (new_optimizer_returns sys w0) as (a & m & evs & Hnew & Hinv & Hd).
  assert (Hself1 : self w1
                   = {| is_apple_silicon := Some a; mps_available := Some m |}).
  { subst w1. rewrite Hnew. reflexivity. }
  assert (Hself : self w = self w1) by apply run_ops_self.
  split; [exists a, m; exact Hself1|].
  split.
  { unfold mps_implies_apple_silicon. rewrite Hself1. simpl.
    intros [= ->]. rewrite Hinv; reflexivity. }
  split; [exact Hself|].
  intros sys' r w' Hr Hprec.
  rewrite Hself, Hself1 in *. clear Hself1.
  destruct (get_memory_info_returns sys') as (mi & evs' & Hmi).
  assert (Hs : self w = {| is_apple_silicon := Some a;
                           mps_available := Some m |}) by congruence.
  rewrite (get_recommended_settings_unfold sys' w mi _ a m (Hmi w) Hs) in Hr.
  destruct (default (Some 8) (mi !! "total_gb")); [|discriminate].
  injection Hr as <- _. simpl in Hprec.
  destruct m; [|discriminate].
  rewrite Hinv in * by reflexivity. simpl. split; [reflexivity | exact Hd].
Qed.

Lemma mps_only_on_apple_silicon_witness :
  let sys := mac_with 16 in
  let w1 := snd (new_optimizer sys no_world) in
  let w := run_ops [(sys, OpApply); (sys, OpGetRecommendedSettings);
                    (linux_cuda, OpPrintSystemInfo)] w1 in
  is_apple_silicon (self w) = Some true /\
  fst (_detect_apple_silicon sys no_world) = Ret true.
Proof.
  intros sys w1 w.
  destruct (mps_only_on_apple_silicon sys no_world
              [(sys, OpApply); (sys, OpGetRecommendedSettings);
               (linux_cuda, OpPrintSystemInfo)]) as (_ & _ & _ & H).
  eapply (H sys).
  - vm_compute. reflexivity.
  - reflexivity.
Defined.

(** * Further properties of the module *)

(** ** Only one method writes [os.environ] *)

Lemma emit_environ e : preserves environ (emit e).
Proof. intros w. reflexivity. Qed.

Lemma print_environ line : preserves environ (print line).
Proof. apply emit_environ. Qed.

Lemma getattr_environ attr : preserves environ (getattr attr).
Proof. intros w. unfold getattr. destruct (attr (self w)); reflexivity. Qed.

#[local] Hint Resolve emit_environ print_environ getattr_environ : frame.

Lemma subprocess_run_environ sys argv :
  preserves environ (subprocess_run sys argv).
Proof. unfold subprocess_run. frame. Qed.

Lemma import_torch_environ sys : preserves environ (import_torch sys).
Proof. unfold import_torch. frame. Qed.

Lemma import_psutil_environ sys : preserves environ (import_psutil sys).
Proof. unfold import_psutil. frame. Qed.

#[local] Hint Resolve subprocess_run_environ import_torch_environ
  import_psutil_environ : frame.

Lemma in_world_environ {L A} (m : M A) :
  preserves environ m -> preserves (@frame_environ L) (in_world m).
Proof.
  intros Hm [l w]. unfold in_world, frame_environ. simpl.
  specialize (Hm w). destruct (m w) as [r w']. exact Hm.
Qed.

Lemma assign_environ key value : preserves frame_environ (assign key value).
Proof. intros lw. reflexivity. Qed.

Lemma with_local_environ {L A} (init : L) (body : ST (L * world) A) :
  preserves frame_environ body -> preserves environ (with_local init body).
Proof.
  intros Hb w. unfold with_local.
  specialize (Hb (init, w)). unfold frame_environ in Hb.
  destruct (body (init, w)) as [[a|e] lw]; exact Hb.
Qed.

#[local] Hint Resolve in_world_environ assign_environ : frame.

Lemma detect_environ sys : preserves environ (_detect_apple_silicon sys).
Proof. unfold _detect_apple_silicon. frame. Qed.

Lemma check_mps_environ sys : preserves environ (_check_mps_availability sys).
Proof. unfold _check_mps_availability. frame. Qed.

Lemma check_cuda_environ sys :
  preserves environ (_check_cuda_availability sys).
Proof. unfold _check_cuda_availability. frame. Qed.

#[local] Hint Resolve detect_environ check_mps_environ
  check_cuda_environ : frame.

Lemma get_optimal_device_environ sys prefer_mps :
  preserves environ (get_optimal_device sys prefer_mps).
Proof. unfold get_optimal_device. frame. Qed.

Lemma get_memory_info_environ sys : preserves environ (get_memory_info sys).
Proof. unfold get_memory_info. apply with_local_environ. frame. Qed.

#[local] Hint Resolve get_optimal_device_environ
  get_memory_info_environ : frame.

Lemma get_recommended_settings_environ sys :
  preserves environ (get_recommended_settings sys).
Proof. unfold get_recommended_settings. frame. Qed.

#[local] Hint Resolve get_recommended_settings_environ : frame.

Lemma print_memory_line_environ label v :
  preserves environ (print_memory_line label v).
Proof. unfold print_memory_line. frame. Qed.

#[local] Hint Resolve print_memory_line_environ : frame.

Lemma print_system_info_environ sys :
  preserves environ (print_system_info sys).
Proof. unfold print_system_info. frame. Qed.

(** Every method but [apply_apple_silicon_optimizations] leaves
    [os.environ] as it found it, whether it returns or raises, and so does
    constructing an instance. *)
Theorem queries_never_write_environ
    (sys : system) (op : operation) (w : world) :
  environ (snd (new_optimizer sys w)) = environ w /\
  (op <> OpApply -> environ (run_op (sys, op) w) = environ w).
Proof.
  split.
  - destruct (new_optimizer_returns sys w) as (a & m & evs & H & _).
    rewrite H. reflexivity.
  - intros Hop. unfold run_op. simpl.
    destruct op;
      [ apply detect_environ | apply check_mps_environ
      | apply check_cuda_environ | apply get_optimal_device_environ
      | congruence
      | apply get_memory_info_environ
      | apply get_recommended_settings_environ
      | apply print_system_info_environ ].
Qed.

Lemma queries_never_write_environ_witness :
  let w := {| self := {| is_apple_silicon := Some true;
                         mps_available := Some true |};
              environ := {["HOME" := "/Users/ace"]}; trace := [] |} in
  environ (run_op (mac_without_psutil, OpPrintSystemInfo) w) = environ w.
Proof.
  intros w.
  apply (queries_never_write_environ mac_without_psutil OpPrintSystemInfo w).
  discriminate.
Defined.

(** ** No command is run off Darwin *)

Lemma run_events_log w evs :
  forallb (fun e => negb (is_run e)) evs = true ->
  run_events (log w evs) = run_events w.
Proof.
  intros H. unfold run_events, log. simpl. rewrite filter_app.
  induction evs as [|e evs IH]; simpl in *.
  - apply app_nil_r.
  - apply andb_prop in H as [He Hevs].
    rewrite filter_cons. destruct e; simpl in *; try discriminate;
      apply IH, Hevs.
Qed.

Lemma emit_import_runs name : preserves run_events (emit (EvImport name)).
Proof. intros w. apply (run_events_log w [EvImport name]). reflexivity. Qed.

Lemma print_runs line : preserves run_events (print line).
Proof. intros w. apply (run_events_log w [EvPrint line]). reflexivity. Qed.

Lemma setenv_runs key value : preserves run_events (setenv key value).
Proof. intros w. reflexivity. Qed.

Lemma getattr_runs attr : preserves run_events (getattr attr).
Proof. intros w. unfold getattr. destruct (attr (self w)); reflexivity. Qed.

#[local] Hint Resolve emit_import_runs print_runs setenv_runs
  getattr_runs : frame.

Lemma import_torch_runs sys : preserves run_events (import_torch sys).
Proof. unfold import_torch. frame. Qed.

Lemma import_psutil_runs sys : preserves run_events (import_psutil sys).
Proof. unfold import_psutil. frame. Qed.

#[local] Hint Resolve import_torch_runs import_psutil_runs : frame.

Lemma in_world_runs {L A} (m : M A) :
  preserves run_events m -> preserves (@frame_run_events L) (in_world m).
Proof.
  intros Hm [l w]. unfold in_world, frame_run_events. simpl.
  specialize (Hm w). destruct (m w) as [r w']. exact Hm.
Qed.

Lemma assign_runs key value : preserves frame_run_events (assign key value).
Proof. intros lw. reflexivity. Qed.

Lemma with_local_runs {L A} (init : L) (body : ST (L * world) A) :
  preserves frame_run_events body ->
  preserves run_events (with_local init body).
Proof.
  intros Hb w. unfold with_local.
  specialize (Hb (init, w)). unfold frame_run_events in Hb.
  destruct (body (init, w)) as [[a|e] lw]; exact Hb.
Qed.

#[local] Hint Resolve in_world_runs assign_runs : frame.

Section OffDarwin.
Context (sys : system) (Hos : platform_system sys <> "Darwin").

Lemma not_darwin_eqb : String.eqb (platform_system sys) "Darwin" = false.
Proof. apply String.eqb_neq, Hos. Qed.

Lemma detect_runs : preserves run_events (_detect_apple_silicon sys).
Proof. intros w. rewrite (detect_not_darwin sys w Hos). reflexivity. Qed.

Lemma check_mps_runs : preserves run_events (_check_mps_availability sys).
Proof. unfold _check_mps_availability. frame. Qed.

Lemma check_cuda_runs : preserves run_events (_check_cuda_availability sys).
Proof. unfold _check_cuda_availability. frame. Qed.

#[local] Hint Resolve check_cuda_runs : frame.

Lemma get_optimal_device_runs prefer_mps :
  preserves run_events (get_optimal_device sys prefer_mps).
Proof. unfold get_optimal_device. frame. Qed.

Lemma apply_runs : preserves run_events (apply_apple_silicon_optimizations sys).
Proof. unfold apply_apple_silicon_optimizations. frame. Qed.

Lemma get_memory_info_runs : preserves run_events (get_memory_info sys).
Proof.
  unfold get_memory_info. rewrite not_darwin_eqb.
  apply with_local_runs. frame.
Qed.

#[local] Hint Resolve get_optimal_device_runs get_memory_info_runs : frame.

Lemma get_recommended_settings_runs :
  preserves run_events (get_recommended_settings sys).
Proof. unfold get_recommended_settings. frame. Qed.

Lemma print_memory_line_runs label v :
  preserves run_events (print_memory_line label v).
Proof. unfold print_memory_line. frame. Qed.

#[local] Hint Resolve get_recommended_settings_runs
  print_memory_line_runs : frame.

Lemma print_system_info_runs : preserves run_events (print_system_info sys).
Proof. unfold print_system_info. frame. Qed.

Lemma run_op_runs op w : run_events (run_op (sys, op) w) = run_events w.
Proof.
  unfold run_op. simpl.
  destruct op;
    [ apply detect_runs | apply check_mps_runs | apply check_cuda_runs
    | apply get_optimal_device_runs | apply apply_runs
    | apply get_memory_info_runs | apply get_recommended_settings_runs
    | apply print_system_info_runs ].
Qed.

End OffDarwin.

Lemma new_optimizer_off_darwin sys w :
  platform_system sys <> "Darwin" ->
  new_optimizer sys w
  = (Ret tt, {| self := {| is_apple_silicon := Some false;
                           mps_available := Some false |};
                environ := environ w; trace := trace w |}).
Proof.
  intros Hos. unfold new_optimizer, __init__.
  unfold mbind at 1, st_mbind, st_bind.
  rewrite (detect_not_darwin sys _ Hos). reflexivity.
Qed.



(** On Darwin the memory probe does run [sysctl]. *)
Example command_on_darwin :
  run_events (snd (get_memory_info (mac_with 16) (constructed_world true true)))
  = [EvRun memsize_argv].
Proof. vm_compute. reflexivity. Qed.

(** ** The environment table *)

Lemma for_each_setenv table w :
  for_each table (fun kv => setenv (fst kv) (snd kv)) w
  = (Ret tt, {| self := self w; environ := write_table table (environ w);
                trace := trace w |}).
Proof.
  revert w. induction table as [|kv table IH]; intros w; simpl.
  - destruct w; reflexivity.
  - unfold mbind, st_mbind, st_bind, setenv at 1. rewrite IH. reflexivity.
Qed.

Lemma apply_on_target sys w :
  is_apple_silicon (self w) = Some true ->
  apply_apple_silicon_optimizations sys w
  = (Ret tt,
     {| self := self w;
        environ := write_table (optimizations sys) (environ w);
        trace := trace w
                 ++ [EvPrint "✅ Applied Apple Silicon ARM64 optimizations"] |}).
Proof.
  intros H. unfold apply_apple_silicon_optimizations, getattr.
  unfold mbind at 1, st_mbind, st_bind. rewrite H.
  cbv beta iota delta [negb].
  unfold mbind, st_mbind, st_bind. rewrite for_each_setenv. reflexivity.
Qed.

(** A key of the table reads back as the table's value, any other key
    as before. *)
Ltac table_key k name :=
  destruct (decide (k = name)) as [->|?];
  [ repeat (rewrite lookup_insert_ne by discriminate);
    rewrite lookup_insert_eq |
    rewrite (lookup_insert_ne _ name k) by congruence ].

Lemma write_optimizations_lookup sys env k :
  write_table (optimizations sys) env !! k
  = if decide (k ∈ ["OMP_NUM_THREADS"; "MKL_NUM_THREADS";
                    "OPENBLAS_NUM_THREADS"; "VECLIB_MAXIMUM_THREADS"])
    then Some (thread_count sys)
    else if decide (k = "PYTORCH_ENABLE_MPS_FALLBACK") then Some "1"
    else if decide (k = "PYTORCH_MPS_HIGH_WATERMARK_RATIO") then Some "0.0"
    else if decide (k = "MALLOC_ARENA_MAX") then Some "4"
    else if decide (k = "TOKENIZERS_PARALLELISM") then Some "false"
    else env !! k.
Proof.
  unfold write_table, optimizations. simpl.
  table_key k "TOKENIZERS_PARALLELISM"; [reflexivity|].
  table_key k "VECLIB_MAXIMUM_THREADS"; [reflexivity|].
  table_key k "OPENBLAS_NUM_THREADS"; [reflexivity|].
  table_key k "MKL_NUM_THREADS"; [reflexivity|].
  table_key k "OMP_NUM_THREADS"; [reflexivity|].
  table_key k "MALLOC_ARENA_MAX"; [reflexivity|].
  table_key k "PYTORCH_MPS_HIGH_WATERMARK_RATIO"; [reflexivity|].
  table_key k "PYTORCH_ENABLE_MPS_FALLBACK"; [reflexivity|].
  destruct (decide (k ∈ _)) as [Hin|_].
  { exfalso. rewrite !elem_of_cons, elem_of_nil in Hin. intuition congruence. }
  repeat case_decide; congruence.
Qed.

(** On the target architecture the call returns, prints one line, keeps
    the instance, gives every key of the table its value and leaves every
    other variable of the environment as it was. *)
Theorem apply_writes_table (sys : system) (w : world) :
  is_apple_silicon (self w) = Some true ->
  exists w',
    apply_apple_silicon_optimizations sys w = (Ret tt, w') /\
    self w' = self w /\
    trace w'
    = (trace w ++ [EvPrint "✅ Applied Apple Silicon ARM64 optimizations"])%list /\
    (forall k v, (k, v) ∈ optimizations sys -> environ w' !! k = Some v) /\
    (forall k, k ∉ (optimizations sys).*1 ->
               environ w' !! k = environ w !! k).
Proof.
  intros H. rewrite (apply_on_target sys w H). eexists. split; [reflexivity|].
  cbn [self environ trace].
  split; [reflexivity|]. split; [reflexivity|]. split.
  - intros k v Hin. rewrite write_optimizations_lookup.
    unfold optimizations in Hin.
    rewrite !elem_of_cons, elem_of_nil in Hin.
    repeat destruct Hin as [[= -> ->]|Hin]; try reflexivity. contradiction.
  - intros k Hk. rewrite write_optimizations_lookup.
    unfold optimizations in Hk. simpl in Hk.
    rewrite !not_elem_of_cons in Hk.
    destruct (decide (k ∈ _)) as [Hin|_].
    { exfalso. rewrite !elem_of_cons, elem_of_nil in Hin. intuition congruence. }
    repeat case_decide; intuition congruence.
Qed.

Lemma apply_writes_table_witness :
  exists w',
    apply_apple_silicon_optimizations (mac_with 16)
      (constructed_world true true) = (Ret tt, w') /\
    self w' = self (constructed_world true true) /\
    trace w'
    = (trace (constructed_world true true)
       ++ [EvPrint "✅ Applied Apple Silicon ARM64 optimizations"])%list /\
    (forall k v, (k, v) ∈ optimizations (mac_with 16) ->
                 environ w' !! k = Some v) /\
    (forall k, k ∉ (optimizations (mac_with 16)).*1 ->
               environ w' !! k = environ (constructed_world true true) !! k).
Proof.
  apply (apply_writes_table (mac_with 16) (constructed_world true true)).
  reflexivity.
Defined.

Lemma apply_off_target sys w :
  is_apple_silicon (self w) <> Some true ->
  snd (apply_apple_silicon_optimizations sys w) = w.
Proof.
  intros H. unfold apply_apple_silicon_optimizations, getattr.
  unfold mbind at 1, st_mbind, st_bind.
  destruct (is_apple_silicon (self w)) as [[|]|]; try reflexivity.
  congruence.
Qed.

(** Applying the optimizations a second time, on the same system, changes
    nothing in the environment the first call left. *)
Theorem apply_twice_environ (sys : system) (w : world) :
  let once := snd (apply_apple_silicon_optimizations sys w) in
  let twice := snd (apply_apple_silicon_optimizations sys once) in
  environ twice = environ once /\ self twice = self w.
Proof.
  intros once twice. subst once twice.
  destruct (decide (is_apple_silicon (self w) = Some true)) as [H|H].
  - rewrite (apply_on_target sys w H). cbn [snd].
    rewrite apply_on_target by exact H. cbn [snd self environ trace].
    split; [|reflexivity].
    apply map_eq. intros k. rewrite !write_optimizations_lookup.
    repeat case_decide; reflexivity.
  - rewrite !(apply_off_target sys w H). split; reflexivity.
Qed.

(** Each thread-count hint is [min(8, count)], with 4 for an unknown or
    zero CPU count: never above 8, and at least 1 for a positive count. *)
Lemma thread_count_bounds (sys : system) :
  exists n,
    thread_count sys = Py.str_int n /\
    n <= 8 /\
    (cpu_count sys = None \/ cpu_count sys = Some 0 -> n = 4) /\
    (forall c, cpu_count sys = Some c -> 0 < c -> n = Z.min 8 c /\ 1 <= n).
Proof.
  unfold thread_count. destruct (cpu_count sys) as [count|].
  - destruct (Z.eqb_spec count 0) as [->|Hcount].
    + exists 4. split; [reflexivity|]. split; [lia|]. split; [reflexivity|].
      intros c [= <-]. lia.
    + exists (Z.min 8 count). split; [reflexivity|]. split; [lia|]. split.
      * intros [[=]|[= ->]]. congruence.
      * intros c [= <-]. lia.
  - exists 4. split; [reflexivity|]. split; [lia|]. split; [reflexivity|].
    discriminate.
Qed.

(** With every count the runtime can report, the four thread-count
    variables get one and the same number between 1 and 8. *)
Theorem thread_hints_bounded (sys : system) (w : world) :
  is_apple_silicon (self w) = Some true ->
  (cpu_count sys = None \/ exists c, cpu_count sys = Some c /\ 0 <= c) ->
  exists n,
    1 <= n <= 8 /\
    forall k, k ∈ ["OMP_NUM_THREADS"; "MKL_NUM_THREADS";
                   "OPENBLAS_NUM_THREADS"; "VECLIB_MAXIMUM_THREADS"] ->
      environ (snd (apply_apple_silicon_optimizations sys w)) !! k
      = Some (Py.str_int n).
Proof.
  intros Htarget Hcount.
  destruct (thread_count_bounds sys) as (n & Hn & Hle & Hfour & Hpos).
  exists n. split.
  - destruct Hcount as [Hnone | (c & Hc & Hc0)].
    + rewrite Hfour by (left; exact Hnone). lia.
    + destruct (Z.eq_dec c 0) as [->|Hne].
      * rewrite Hfour by (right; exact Hc). lia.
      * destruct (Hpos c Hc) as [_ H1]; lia.
  - intros k Hk. rewrite (apply_on_target sys w Htarget). cbn [snd environ].
    rewrite write_optimizations_lookup, <- Hn.
    destruct (decide (k ∈ _)); [reflexivity | contradiction].
Qed.

Lemma thread_hints_bounded_witness :
  exists n,
    1 <= n <= 8 /\
    forall k, k ∈ ["OMP_NUM_THREADS"; "MKL_NUM_THREADS";
                   "OPENBLAS_NUM_THREADS"; "VECLIB_MAXIMUM_THREADS"] ->
      environ (snd (apply_apple_silicon_optimizations (mac_with 16)
                      (constructed_world true true))) !! k
      = Some (Py.str_int n).
Proof.
  apply (thread_hints_bounded (mac_with 16) (constructed_world true true)).
  - reflexivity.
  - right. exists 10. split; [reflexivity | lia].
Defined.

(** ** The shapes of a memory report *)


(** ** Detection and construction *)

(** Detection looks at the OS first and at the machine name next, in any
    letter case, and runs the brand-string command only on a Darwin host
    whose machine is not arm64; it answers [True] on Darwin only. *)
Theorem detect_paths (sys : system) (w : world) :
  (platform_system sys <> "Darwin" ->
   _detect_apple_silicon sys w = (Ret false, w)) /\
  (platform_system sys = "Darwin" ->
   Py.lower (platform_machine sys) = "arm64" ->
   _detect_apple_silicon sys w = (Ret true, w)) /\
  (platform_system sys = "Darwin" ->
   Py.lower (platform_machine sys) <> "arm64" ->
   snd (_detect_apple_silicon sys w) = log w [EvRun brand_argv]) /\
  (fst (_detect_apple_silicon sys w) = Ret true ->
   platform_system sys = "Darwin").
Proof.
  split; [apply detect_not_darwin|].
  unfold _detect_apple_silicon, subprocess_run, emit. unfold_monad.
  fold brand_argv.
  destruct (String.eqb_spec (platform_system sys) "Darwin") as [Hd|Hd];
    simpl.
  2: { repeat split; solve [congruence | simpl; discriminate]. }
  destruct (String.eqb_spec (Py.lower (platform_machine sys)) "arm64")
    as [Hm|Hm].
  - repeat split; congruence.
  - repeat split; try congruence.
    intros _ _. destruct (run_command sys brand_argv); reflexivity.
Qed.

Lemma detect_paths_witness :
  let sys := {| platform_system := "Darwin";
                platform_machine := "ARM64";
                platform_platform := "macOS-14.5-arm64-arm-64bit";
                run_command := fun _ => NotFound;
                torch := None;
                psutil_available := None;
                cpu_count := None |} in
  _detect_apple_silicon sys no_world = (Ret true, no_world).
Proof.
  intros sys.
  apply (detect_paths sys no_world); reflexivity.
Defined.


Example construction_samples :
  self (snd (new_optimizer (mac_with 16) no_world))
  = {| is_apple_silicon := Some true; mps_available := Some true |} /\
  self (snd (new_optimizer mac_failed_brand_query (constructed_world false true)))
  = {| is_apple_silicon := Some true; mps_available := Some false |} /\
  self (snd (new_optimizer linux_cuda (constructed_world true true)))
  = {| is_apple_silicon := Some false; mps_available := Some false |}.
Proof. repeat split; vm_compute; reflexivity. Qed.

(** ** Relations between the recommended settings *)

(** Every record the settings query returns is coherent: flash attention
    off and backend "pt"; device and precision among their three and two
    values; device "mps" only with precision "float16"; a batch size
    between 1 and 4; the aggressive offload only together with the plain
    one; a batch size of 2 or more only without the aggressive offload,
    and no offload at all only with the largest batch size. *)
Theorem settings_coherent
    (sys : system) (w w' : world) (a m : bool) (r : settings) :
  self w = {| is_apple_silicon := Some a; mps_available := Some m |} ->
  get_recommended_settings sys w = (Ret r, w') ->
  use_flash_attention r = false /\
  backend r = "pt" /\
  (device r = "mps" \/ device r = "cuda" \/ device r = "cpu") /\
  (precision r = "float16" \/ precision r = "float32") /\
  (device r = "mps" -> precision r = "float16") /\
  1 <= batch_size r <= 4 /\
  (offload_dit_to_cpu r = true -> offload_to_cpu r = true) /\
  (2 <= batch_size r -> offload_dit_to_cpu r = false) /\
  (offload_to_cpu r = false -> batch_size r = 4).
Proof.
  intros Hself Hr.
  destruct (get_memory_info_returns sys) as (mi & evs & Hmi).
  rewrite (get_recommended_settings_unfold sys w mi _ a m (Hmi w) Hself) in Hr.
  destruct (default (Some 8) (mi !! "total_gb")) as [t|]; [|discriminate].
  injection Hr as <- _. simpl.
  split; [reflexivity|]. split; [reflexivity|].
  split.
  { unfold spec_device. destruct (a && true && m);
      [|destruct (cuda_available sys)]; auto. }
  split; [destruct m; auto|].
  split.
  { unfold spec_device. destruct a, m; simpl; try reflexivity;
      destruct (cuda_available sys); discriminate. }
  split; [lia|].
  rewrite !Z.ltb_lt, !Z.ltb_ge.
  split; [lia|].
  split; intros H; Z.to_euclidean_division_equations; lia.
Qed.

Lemma settings_coherent_witness :
  let r := {| device := "mps"; offload_to_cpu := true;
              offload_dit_to_cpu := false; use_flash_attention := false;
              backend := "pt"; batch_size := 2; precision := "float16" |} in
  use_flash_attention r = false /\
  backend r = "pt" /\
  (device r = "mps" \/ device r = "cuda" \/ device r = "cpu") /\
  (precision r = "float16" \/ precision r = "float32") /\
  (device r = "mps" -> precision r = "float16") /\
  1 <= batch_size r <= 4 /\
  (offload_dit_to_cpu r = true -> offload_to_cpu r = true) /\
  (2 <= batch_size r -> offload_dit_to_cpu r = false) /\
  (offload_to_cpu r = false -> batch_size r = 4).
Proof.
  intros r.
  eapply (settings_coherent (mac_with 16) (constructed_world true true)).
  - reflexivity.
  - vm_compute. reflexivity.
Defined.

(** Off Darwin the total memory is never probed: when psutil is there,
    the settings are those of an 8 GiB machine whatever memory the host
    has, with the device of the decision order and float32 unless the
    instance says MPS. *)
Theorem settings_off_darwin
    (sys : system) (w : world) (a m : bool) (available : Z) :
  platform_system sys <> "Darwin" ->
  psutil_available sys = Some available ->
  self w = {| is_apple_silicon := Some a; mps_available := Some m |} ->
  fst (get_recommended_settings sys w)
  = Ret {| device := spec_device a true m (cuda_available sys);
           offload_to_cpu := true;
           offload_dit_to_cpu := true;
           use_flash_attention := false;
           backend := "pt";
           batch_size := 1;
           precision := if m then "float16" else "float32" |}.
Proof.
  intros Hos Hps Hself.
  assert (Hok : memory_probe_fails sys = false).
  { unfold memory_probe_fails, memsize_query_fails.
    apply String.eqb_neq in Hos. rewrite Hos, Hps. reflexivity. }
  destruct (get_memory_info_succeeded sys w Hok)
    as (mi & w1 & av & Hmi & _ & _ & Hother & _).
  rewrite (get_recommended_settings_unfold sys w mi w1 a m Hmi Hself).
  rewrite (Hother Hos). reflexivity.
Qed.

Lemma settings_off_darwin_witness :
  fst (get_recommended_settings linux_cuda (constructed_world false false))
  = Ret {| device := spec_device false true false (cuda_available linux_cuda);
           offload_to_cpu := true;
           offload_dit_to_cpu := true;
           use_flash_attention := false;
           backend := "pt";
           batch_size := 1;
           precision := "float32" |}.
Proof.
  apply (settings_off_darwin linux_cuda (constructed_world false false)
           false false (20 * 1024 ^ 3)).
  - discriminate.
  - reflexivity.
  - reflexivity.
Defined.

(** ** The report and the entry point *)

Section Outcomes.
Context (o : optimizer).

Lemma returns_ret {A} (a : A) (Q : A -> Prop) :
  Q a -> returns o (st_ret a) Q.
Proof. intros HQ w Hw. exists a, w. auto. Qed.

Lemma returns_bind {A B} (m : M A) (k : A -> M B) Q R :
  returns o m Q -> (forall a, Q a -> returns o (k a) R) ->
  returns o (m ≫= k) R.
Proof.
  intros Hm Hk w Hw. destruct (Hm w Hw) as (a & w1 & Hrun & Hw1 & HQ).
  unfold mbind, st_mbind, st_bind. rewrite Hrun. apply (Hk a HQ w1 Hw1).
Qed.

Lemma raises_bind_now {A B} (m : M A) (k : A -> M B) e :
  raises o m e -> raises o (m ≫= k) e.
Proof.
  intros Hm w Hw. specialize (Hm w Hw).
  unfold mbind, st_mbind, st_bind.
  destruct (m w) as [[a|e'] w1]; simpl in *; [discriminate|].
  injection Hm as ->. reflexivity.
Qed.

Lemma raises_bind_later {A B} (m : M A) (k : A -> M B) Q e :
  returns o m Q -> (forall a, Q a -> raises o (k a) e) ->
  raises o (m ≫= k) e.
Proof.
  intros Hm Hk w Hw. destruct (Hm w Hw) as (a & w1 & Hrun & Hw1 & HQ).
  unfold mbind, st_mbind, st_bind. rewrite Hrun. apply (Hk a HQ w1 Hw1).
Qed.

Lemma returns_fst {A} (m : M A) (Q : A -> Prop) :
  preserves self m ->
  (forall w, self w = o -> exists a, fst (m w) = Ret a /\ Q a) ->
  returns o m Q.
Proof.
  intros Hp Hr w Hw. destruct (Hr w Hw) as (a & Ha & HQ).
  specialize (Hp w). destruct (m w) as [r w1]. simpl in *. subst r.
  exists a, w1. split; [reflexivity|]. split; [congruence | exact HQ].
Qed.

Lemma returns_print line : returns o (print line) (fun _ => True).
Proof. intros w Hw. eexists tt, _. split; [reflexivity|]. auto. Qed.

Lemma returns_print_memory_line label v :
  returns o (print_memory_line label v) (fun _ => True).
Proof.
  unfold print_memory_line. destruct (truthy v).
  - apply returns_print.
  - apply returns_ret. exact I.
Qed.

Lemma returns_for_each_print {A} (xs : list A) (line : A -> string) :
  returns o (for_each xs (fun x => print (line x))) (fun _ => True).
Proof.
  induction xs as [|x xs IH]; simpl.
  - apply returns_ret. exact I.
  - eapply returns_bind; [apply returns_print | intros _ _; exact IH].
Qed.

Lemma returns_subscript d key v :
  d !! key = Some v -> returns o (subscript d key) (fun x => x = v).
Proof. intros H. unfold subscript. rewrite H. apply returns_ret. reflexivity. Qed.

Lemma raises_subscript d key :
  d !! key = None -> raises o (subscript d key) KeyError.
Proof. intros H w _. unfold subscript. rewrite H. reflexivity. Qed.

Lemma returns_get_memory_info_failed sys :
  memory_probe_fails sys = true ->
  returns o (get_memory_info sys)
    (fun mi => mi !! "total_gb" = Some None /\
               mi !! "available_gb" = Some None).
Proof.
  intros Hfail. apply returns_fst; [apply get_memory_info_self|].
  intros w _.
  destruct (get_memory_info_failed sys w Hfail) as (mi & w1 & H & Ht & Ha).
  exists mi. rewrite H. auto.
Qed.

Lemma returns_get_memory_info_succeeded sys :
  memory_probe_fails sys = false ->
  returns o (get_memory_info sys)
    (fun mi => (exists v, mi !! "available_gb" = Some v) /\
               (platform_system sys <> "Darwin" -> mi !! "total_gb" = None) /\
               (platform_system sys = "Darwin" ->
                exists v, mi !! "total_gb" = Some v)).
Proof.
  intros Hok. apply returns_fst; [apply get_memory_info_self|].
  intros w _.
  destruct (get_memory_info_succeeded sys w Hok)
    as (mi & w1 & av & H & _ & Ha & Hother & Hdarwin).
  exists mi. rewrite H. split; [reflexivity|].
  split; [eauto|]. split; [exact Hother|].
  intros Hd. destruct (Hdarwin Hd) as (rc & out & bytes & _ & _ & Ht). eauto.
Qed.

End Outcomes.

Section ConstructedOutcomes.
Context (a m : bool).
Let o := {| is_apple_silicon := Some a; mps_available := Some m |}.

Lemma returns_getattr_is_apple_silicon :
  returns o (getattr is_apple_silicon) (fun b => b = a).
Proof.
  intros w Hw. exists a, w. unfold getattr. rewrite Hw. auto.
Qed.

Lemma returns_getattr_mps_available :
  returns o (getattr mps_available) (fun b => b = m).
Proof.
  intros w Hw. exists m, w. unfold getattr. rewrite Hw. auto.
Qed.

Lemma returns_get_optimal_device sys prefer_mps :
  returns o (get_optimal_device sys prefer_mps) (fun _ => True).
Proof.
  apply returns_fst; [apply get_optimal_device_self|].
  intros w Hw. rewrite (get_optimal_device_returns sys prefer_mps w a m Hw).
  eauto.
Qed.

Lemma returns_get_recommended_settings sys :
  memory_probe_fails sys = false ->
  returns o (get_recommended_settings sys) (fun _ => True).
Proof.
  intros Hok. apply returns_fst; [apply get_recommended_settings_self|].
  intros w Hw.
  destruct (get_memory_info_succeeded sys w Hok)
    as (mi & w1 & av & Hmi & _ & _ & Hother & Hdarwin).
  rewrite (get_recommended_settings_unfold sys w mi w1 a m Hmi Hw).
  destruct (decide (platform_system sys = "Darwin")) as [Hd|Hd].
  - destruct (Hdarwin Hd) as (rc & out & bytes & _ & _ & Ht).
    rewrite Ht. simpl. eauto.
  - rewrite (Hother Hd). simpl. eauto.
Qed.

Lemma raises_get_recommended_settings sys :
  memory_probe_fails sys = true ->
  raises o (get_recommended_settings sys) TypeError.
Proof.
  intros Hfail w Hw.
  apply (get_recommended_settings_raises_iff sys w a m Hw), Hfail.
Qed.

End ConstructedOutcomes.

Create HintDb outcome.

#[local] Hint Resolve returns_print returns_print_memory_line
  returns_for_each_print returns_getattr_is_apple_silicon
  returns_getattr_mps_available returns_get_optimal_device : outcome.

Ltac returns_step :=
  eapply returns_bind; [solve [eauto with outcome] | intros ? ?].

Ltac raises_step :=
  eapply raises_bind_later; [solve [eauto with outcome] | intros ? ?].

Section Report.
Context (sys : system) (a m : bool).
Let o := {| is_apple_silicon := Some a; mps_available := Some m |}.

Lemma print_system_info_returns :
  memory_probe_fails sys = false ->
  platform_system sys = "Darwin" ->
  returns o (print_system_info sys) (fun _ => True).
Proof.
  intros Hok Hd. unfold print_system_info. do 10 returns_step.
  eapply returns_bind; [apply returns_get_memory_info_succeeded, Hok|].
  intros mi ([av Hav] & _ & Htotal). destruct (Htotal Hd) as [t Ht].
  eapply returns_bind; [apply (returns_subscript o mi _ t Ht) | intros ? _].
  returns_step.
  eapply returns_bind; [apply (returns_subscript o mi _ av Hav) | intros ? _].
  returns_step.
  eapply returns_bind;
    [apply returns_get_recommended_settings, Hok | intros r _].
  do 2 returns_step. apply returns_print.
Qed.

Lemma print_system_info_key_error :
  memory_probe_fails sys = false ->
  platform_system sys <> "Darwin" ->
  raises o (print_system_info sys) KeyError.
Proof.
  intros Hok Hd. unfold print_system_info. do 10 raises_step.
  eapply raises_bind_later; [apply returns_get_memory_info_succeeded, Hok|].
  intros mi (_ & Htotal & _).
  apply raises_bind_now, raises_subscript, Htotal, Hd.
Qed.

Lemma print_system_info_type_error :
  memory_probe_fails sys = true ->
  raises o (print_system_info sys) TypeError.
Proof.
  intros Hfail. unfold print_system_info. do 10 raises_step.
  eapply raises_bind_later; [apply returns_get_memory_info_failed, Hfail|].
  intros mi (Ht & Hav).
  eapply raises_bind_later;
    [apply (returns_subscript o mi _ None Ht) | intros ? _].
  raises_step.
  eapply raises_bind_later;
    [apply (returns_subscript o mi _ None Hav) | intros ? _].
  raises_step.
  apply raises_bind_now, raises_get_recommended_settings, Hfail.
Qed.

End Report.



Example print_system_info_samples :
  fst (print_system_info (mac_with 16) (constructed_world true true))
  = Ret tt /\
  fst (print_system_info mac_without_psutil (constructed_world true true))
  = Raise TypeError /\
  fst (print_system_info linux_cuda (constructed_world false false))
  = Raise KeyError.
Proof. repeat split; vm_compute; reflexivity. Qed.

Lemma detect_true_darwin sys w :
  fst (_detect_apple_silicon sys w) = Ret true ->
  platform_system sys = "Darwin".
Proof.
  unfold _detect_apple_silicon.
  destruct (String.eqb_spec (platform_system sys) "Darwin") as [Hd|Hd];
    simpl; [intros _; exact Hd | discriminate].
Qed.


Example optimize_for_apple_silicon_samples :
  fst (optimize_for_apple_silicon (mac_with 16) no_world) = Ret tt /\
  fst (optimize_for_apple_silicon linux_cuda no_world) = Ret tt /\
  trace (snd (optimize_for_apple_silicon linux_cuda no_world)) = [] /\
  fst (optimize_for_apple_silicon mac_without_psutil no_world)
  = Raise TypeError /\
  environ (snd (optimize_for_apple_silicon mac_without_psutil no_world))
    !! "MALLOC_ARENA_MAX" = Some "4".
Proof. repeat split; vm_compute; reflexivity. Qed.

(** ** What the device query touches *)

(** On a constructed instance [get_optimal_device] never raises and never
    changes the instance or the environment.  When it answers "mps" it
    does nothing else at all; in every other case it attempts exactly one
    import of torch. *)
Theorem get_optimal_device_effects
    (sys : system) (prefer_mps : bool) (w : world) (a m : bool) :
  self w = {| is_apple_silicon := Some a; mps_available := Some m |} ->
  exists d,
    get_optimal_device sys prefer_mps w
    = (Ret d, if String.eqb d "mps" then w else log w [EvImport "torch"]).
Proof.
  intros Hself.
  rewrite (get_optimal_device_returns sys prefer_mps w a m Hself).
  eexists. f_equal. unfold spec_device.
  destruct (a && prefer_mps && m); [reflexivity|].
  destruct (cuda_available sys); reflexivity.
Qed.

Lemma get_optimal_device_effects_witness :
  exists d,
    get_optimal_device linux_cuda true (constructed_world false false)
    = (Ret d, if String.eqb d "mps" then constructed_world false false
              else log (constructed_world false false) [EvImport "torch"]).
Proof.
  apply (get_optimal_device_effects linux_cuda true
           (constructed_world false false) false false).
  reflexivity.
Defined.
